(** * phelia: conversion of component trees to Block Kit elements

    A shallow embedding of [src/core/components.tsx].  Every exported
    component of that file wraps a host element whose [toSlackElement]
    prop turns the component's props into a Block Kit element; these
    conversion rules are embedded here one by one, over a small model of
    the JavaScript values they read and build. *)

From Stdlib Require Import String List ZArith Bool Lia DecimalString.
Import ListNotations.
Open Scope string_scope.
Open Scope list_scope.

(** ** JavaScript values *)

(** The components of the catalogue, one per exported constant. *)
Inductive component : Type :=
| CText | CButton | CSection | CActions | CImage | CImageBlock | CDivider
| CContext | CConfirm | COption | CDatePicker | CMessage | CModal | CInput
| CTextField | CCheckboxes | COverflowMenu | CRadioButtons | COptionGroup
| CSelectMenu | CMultiSelectMenu | CHome.

(** Values.  Objects keep their properties in insertion order.  A function
    value is identified with what it returns when called without argument;
    that is the only way this file calls one ([option.isSelected()]), and
    the closures it creates are all of the form [() => v].  A React element
    [<C {...props} />] is [VElem C props]. *)
Unset Elimination Schemes.
Inductive value : Type :=
| VUndef
| VNull
| VBool (b : bool)
| VNum (n : Z)
| VStr (s : string)
| VArr (items : list value)
| VObj (fields : list (string * value))
| VFun (ret : value)
| VElem (c : component) (props : list (string * value)).
Set Elimination Schemes.

Definition obj : Type := list (string * value).

(** [o.k], [undefined] when [o] has no property [k]. *)
Fixpoint get (o : obj) (k : string) : value :=
  match o with
  | [] => VUndef
  | (k', v) :: rest => if String.eqb k' k then v else get rest k
  end.

(** [k in o] for own properties. *)
Fixpoint has (o : obj) (k : string) : bool :=
  match o with
  | [] => false
  | (k', _) :: rest => if String.eqb k' k then true else has rest k
  end.

(** [o.k = v]: an existing property keeps its place, a new one goes last. *)
Fixpoint set (k : string) (v : value) (o : obj) : obj :=
  match o with
  | [] => [(k, v)]
  | (k', v') :: rest =>
      if String.eqb k' k then (k, v) :: rest else (k', v') :: set k v rest
  end.

Definition keys (o : obj) : list string := map fst o.

(** [Boolean(v)]. *)
Definition truthy (v : value) : bool :=
  match v with
  | VUndef | VNull => false
  | VBool b => b
  | VNum n => negb (Z.eqb n 0)
  | VStr s => negb (String.eqb s "")
  | VArr _ | VObj _ | VFun _ | VElem _ _ => true
  end.

(** [v === s] for a string literal [s]. *)
Definition strictEq (v : value) (s : string) : bool :=
  match v with
  | VStr s' => String.eqb s' s
  | _ => false
  end.

(** The single characters of a string, as strings. *)
Fixpoint chars (s : string) : list value :=
  match s with
  | EmptyString => []
  | String c rest => VStr (String c EmptyString) :: chars rest
  end.

Definition showZ (n : Z) : string := NilZero.string_of_int (Z.to_int n).

Definition showNat (n : nat) : string := showZ (Z.of_nat n).

(** String conversion as done by [+] with a string operand, for the values
    whose conversion the model has: [undefined], [null], the booleans,
    strings, and the integers that a JavaScript number holds exactly (up to
    2^53 - 1 in absolute value), which print in full.  [None] for every
    other value: a larger number prints rounded or with an exponent, a
    function prints its source text, which the model does not keep, and an
    object or an array is converted by its own [toString] and [valueOf]
    methods, which may be overridden. *)
Definition toString (v : value) : option string :=
  match v with
  | VUndef => Some "undefined"
  | VNull => Some "null"
  | VBool true => Some "true"
  | VBool false => Some "false"
  | VNum n => if (Z.abs n <=? 9007199254740991)%Z then Some (showZ n) else None
  | VStr s => Some s
  | VArr _ | VObj _ | VFun _ | VElem _ _ => None
  end.

(** The converted string where [toString] has one.  A rule that uses it
    ends with [spelled] below, so that the empty string standing for a
    conversion the model does not have never reaches a result. *)
Definition shown (v : value) : string :=
  match toString v with
  | Some s => s
  | None => ""
  end.

(** ** Errors *)

(** The file has no [throw] statement: the only failures are the
    [TypeError]s of the language itself (reading or writing a property of
    [undefined], calling or spreading something that is not callable or
    iterable).  The others are the model's own.  [Unmodelled] marks the
    one limit of the embedding of the rules: a menu whose [type] prop is a
    value that [toString] does not convert.  The source converts it and
    returns an element; the model has no spelling for that element's type
    and says [Unmodelled] instead of making one up.  [Misplaced] and
    [Exhausted] belong to the model of the engine further down: the first
    when it has no place for a child under its parent, the second when the
    depth it was given ran out. *)
Inductive error : Type :=
| TypeError
| Unmodelled
| Misplaced
| Exhausted.

Inductive result (A : Type) : Type :=
| Ok (a : A)
| Throw (e : error).

Arguments Ok {A} a.
Arguments Throw {A} e.

Definition bind {A B : Type} (r : result A) (k : A -> result B) : result B :=
  match r with
  | Ok a => k a
  | Throw e => Throw e
  end.

Notation "x <- r ;; k" := (bind r (fun x => k))
  (at level 61, r at next level, right associativity).
Notation "' p <- r ;; k" := (bind r (fun x => let 'p := x in k))
  (at level 61, p pattern, r at next level, right associativity).

Definition isOk {A : Type} (r : result A) : bool :=
  match r with Ok _ => true | Throw _ => false end.

(** [l.filter(p)] and [l.find(p)] for a callback that may throw. *)
Fixpoint filterM {A : Type} (p : A -> result bool) (l : list A)
  : result (list A) :=
  match l with
  | [] => Ok []
  | x :: rest =>
      b <- p x ;;
      keep <- filterM p rest ;;
      Ok (if b then x :: keep else keep)
  end.

Fixpoint findM {A : Type} (p : A -> result bool) (l : list A)
  : result (option A) :=
  match l with
  | [] => Ok None
  | x :: rest =>
      b <- p x ;;
      if b then Ok (Some x) else findM p rest
  end.

(** ** Property access on arbitrary values *)

(** [v.k]: throws on [undefined] and [null]; arrays and strings have a
    [length]; anything else has no property the file asks for. *)
Definition getProp (v : value) (k : string) : result value :=
  match v with
  | VUndef | VNull => Throw TypeError
  | VObj o => Ok (get o k)
  | VArr items =>
      Ok (if String.eqb k "length" then VNum (Z.of_nat (List.length items))
          else VUndef)
  | VStr s =>
      Ok (if String.eqb k "length" then VNum (Z.of_nat (String.length s))
          else VUndef)
  | _ => Ok VUndef
  end.

(** [f()]. *)
Definition call (f : value) : result value :=
  match f with
  | VFun ret => Ok ret
  | _ => Throw TypeError
  end.

(** [v.k()]. *)
Definition callMethod (v : value) (k : string) : result value :=
  f <- getProp v k ;; call f.

(** Numbered entries ["0"], ["1"], ... as an object spread makes them. *)
Fixpoint indexed (i : nat) (l : list value) : obj :=
  match l with
  | [] => []
  | x :: rest => (showNat i, x) :: indexed (S i) rest
  end.

(** The own enumerable properties that [{...v}] copies (of a React element
    only [props] is kept).  Spreading a value that is not an object never
    throws. *)
Definition ownProps (v : value) : obj :=
  match v with
  | VObj o => o
  | VArr items => indexed 0 items
  | VStr s => indexed 0 (chars s)
  | VElem _ props => [("props", VObj props)]
  | _ => []
  end.

(** [f(...v)]: the elements an argument spread iterates over. *)
Definition iterate (v : value) : result (list value) :=
  match v with
  | VArr items => Ok items
  | VStr s => Ok (chars s)
  | _ => Throw TypeError
  end.

(** ** React elements and resolution *)

(** A deferred computation collected while resolving. Opaque here. *)
Inductive promise : Type :=
| Pending (id : nat).

(** What [reconcile] hands back for one element: the resolved element, or
    [undefined], and the promises found on the way. *)
Definition resolved : Type := (option obj * list promise)%type.

(** Modelled from the spec: [reconcile] itself lives in the reconciler
    module, which is not part of this file's source; the conversion rules
    receive it as their second argument.  By its contract it returns
    [undefined] for an absent prop and otherwise the element, an object,
    that a conversion rule built; it may also throw. *)
Definition resolver : Type := value -> result resolved.

(** A [toSlackElement] function: props, [reconcile], and the shared
    [promises] array, which it extends by [push].  The array after the call
    is returned next to the element. *)
Definition rule : Type :=
  obj -> resolver -> list promise -> result (obj * list promise).

(** The value stored by [instance.k = r] for a resolved [r]. *)
Definition ofResolved (r : option obj) : value :=
  match r with
  | Some o => VObj o
  | None => VUndef
  end.

(** [instance.k.type = "plain_text"]: a [TypeError] when [instance.k] is
    [undefined] or [null]; the module is strict code, so also when it is a
    primitive.  The rules only apply it to what [reconcile] returned. *)
Definition assignPlainText (k : string) (instance : obj) : result obj :=
  match get instance k with
  | VObj o => Ok (set k (VObj (set "type" (VStr "plain_text") o)) instance)
  | _ => Throw TypeError
  end.

(** [if (instance.k) { instance.k.type = "plain_text"; }] *)
Definition coerceIfPresent (k : string) (instance : obj) : result obj :=
  if truthy (get instance k) then assignPlainText k instance else Ok instance.

(** [{ ...v, url: undefined }] *)
Definition withoutUrl (v : value) : value :=
  VObj (set "url" VUndef (ownProps v)).

(** [option => option.isSelected()] used as a predicate. *)
Definition isSelected (option : value) : result bool :=
  r <- callMethod option "isSelected" ;; Ok (truthy r).

(** [React.createElement(C, props)]: a prop that is [undefined] takes the
    component's default. *)
Fixpoint withDefaults (defaults : obj) (props : obj) : obj :=
  match defaults with
  | [] => props
  | (k, d) :: rest =>
      let props' := withDefaults rest props in
      match get props' k with
      | VUndef => set k d props'
      | _ => props'
      end
  end.

(** [Text.defaultProps], [SelectMenu.defaultProps] and
    [MultiSelectMenu.defaultProps]. *)
Definition Text_defaultProps : obj := [("type", VStr "plain_text")].

Definition SelectMenu_defaultProps : obj := [("type", VStr "static")].

Definition MultiSelectMenu_defaultProps : obj := [("type", VStr "static")].

Definition defaultProps (c : component) : obj :=
  match c with
  | CText => Text_defaultProps
  | CSelectMenu => SelectMenu_defaultProps
  | CMultiSelectMenu => MultiSelectMenu_defaultProps
  | _ => []
  end.

Definition createElement (c : component) (props : obj) : value :=
  VElem c (withDefaults (defaultProps c) props).

(** [React.createElement(Section, { children: props.children })] *)
Definition sectionOf (props : obj) : value :=
  createElement CSection [("children", get props "children")].

(** The pattern [[{ fields: x }, ps]] applied to what [reconcile] returned:
    destructuring [undefined] throws. *)
Definition fieldsOf (r : resolved) : result (value * list promise) :=
  match fst r with
  | Some o => Ok (get o "fields", snd r)
  | None => Throw TypeError
  end.

(** [find]'s result as a value. *)
Definition orUndefined (r : option value) : value :=
  match r with
  | Some v => v
  | None => VUndef
  end.

(** ** The conversion rules *)

(** [Text] (lines 31-47). *)
Definition Text_toSlackElement (props : obj) : obj :=
  let instance := [("type", get props "type"); ("text", VStr "")] in
  if strictEq (get props "type") "mrkdwn" then
    set "verbatim" (get props "verbatim") instance
  else if strictEq (get props "type") "plain_text" then
    set "emoji" (get props "emoji") instance
  else instance.

(** [Button] (lines 69-90). *)
Definition Button_toSlackElement : rule := fun props reconcile promises =>
  let instance :=
    [("type", VStr "button");
     ("action_id", get props "action");
     ("style", get props "style");
     ("url", get props "url");
     ("text", VObj [("type", VStr "plain_text"); ("text", VStr "");
                    ("emoji", get props "emoji")])] in
  '(confirm, confirmPromises) <- reconcile (get props "confirm") ;;
  let instance := set "confirm" (ofResolved confirm) instance in
  Ok (instance, promises ++ confirmPromises).

(** [Section] (lines 102-125). *)
Definition Section_toSlackElement : rule := fun props reconcile promises =>
  let instance := [("type", VStr "section")] in
  '(accessory, accessoryPromises) <- reconcile (get props "accessory") ;;
  '(text, textPromises) <- reconcile (get props "text") ;;
  let instance := set "text" (ofResolved text) instance in
  let instance := set "accessory" (ofResolved accessory) instance in
  instance <-
    match text with
    | Some t =>
        if strictEq (get t "type") "text"
        then assignPlainText "text" instance
        else Ok instance
    | None => Ok instance
    end ;;
  Ok (instance, promises ++ accessoryPromises ++ textPromises).

(** [Actions] (lines 131-140). *)
Definition Actions_toSlackElement : obj :=
  [("type", VStr "actions"); ("elements", VArr [])].

(** [Image] (lines 147-157). *)
Definition Image_toSlackElement (props : obj) : obj :=
  [("type", VStr "image");
   ("image_url", get props "imageUrl");
   ("alt_text", get props "alt")].

(** [ImageBlock] (lines 166-188). *)
Definition ImageBlock_toSlackElement (props : obj) : obj :=
  let instance :=
    [("type", VStr "image");
     ("image_url", get props "imageUrl");
     ("alt_text", get props "alt")] in
  if truthy (get props "title") then
    set "title"
      (VObj [("type", VStr "plain_text");
             ("text", get props "title");
             ("emoji", get props "emoji")]) instance
  else instance.

(** [Divider] (lines 190-195). *)
Definition Divider_toSlackElement : obj := [("type", VStr "divider")].

(** [Context] (lines 201-207). *)
Definition Context_toSlackElement : obj :=
  [("type", VStr "context"); ("elements", VArr [])].

(** [Confirm] (lines 217-247).  The three kinds are assigned without a
    test. *)
Definition Confirm_toSlackElement : rule := fun props reconcile promises =>
  let instance :=
    [("isConfirm", VFun (VBool true)); ("style", get props "style")] in
  '(title, titlePromises) <- reconcile (get props "title") ;;
  '(confirm, confirmPromises) <- reconcile (get props "confirm") ;;
  '(deny, denyPromises) <- reconcile (get props "deny") ;;
  let instance := set "title" (ofResolved title) instance in
  let instance := set "confirm" (ofResolved confirm) instance in
  let instance := set "deny" (ofResolved deny) instance in
  instance <- assignPlainText "title" instance ;;
  instance <- assignPlainText "confirm" instance ;;
  instance <- assignPlainText "deny" instance ;;
  Ok (instance,
      promises ++ titlePromises ++ confirmPromises ++ denyPromises).

(** [Option] (lines 257-282). *)
Definition Option_toSlackElement : rule := fun props reconcile promises =>
  let instance :=
    [("isSelected", VFun (get props "selected"));
     ("isOption", VFun (VBool true));
     ("value", get props "value");
     ("url", get props "url")] in
  '(description, descriptionPromises) <- reconcile (get props "description") ;;
  let instance := set "description" (ofResolved description) instance in
  instance <- coerceIfPresent "description" instance ;;
  Ok (instance, promises ++ descriptionPromises).

(** [DatePicker] (lines 292-318). *)
Definition DatePicker_toSlackElement : rule := fun props reconcile promises =>
  let instance :=
    [("type", VStr "datepicker");
     ("initial_date", get props "initialDate");
     ("action_id", get props "action")] in
  '(placeholder, placeholderPromises) <- reconcile (get props "placeholder") ;;
  '(confirm, confirmPromises) <- reconcile (get props "confirm") ;;
  let instance := set "placeholder" (ofResolved placeholder) instance in
  let instance := set "confirm" (ofResolved confirm) instance in
  instance <- coerceIfPresent "placeholder" instance ;;
  Ok (instance, promises ++ placeholderPromises ++ confirmPromises).

(** [Message] (lines 325-331). *)
Definition Message_toSlackElement (props : obj) : obj :=
  [("blocks", VArr []); ("text", get props "text")].

(** [Modal] (lines 340-375). *)
Definition Modal_toSlackElement : rule := fun props reconcile promises =>
  let instance := [("type", VStr "modal"); ("blocks", VArr [])] in
  '(title, titlePromises) <- reconcile (get props "title") ;;
  '(submit, submitPromises) <- reconcile (get props "submit") ;;
  '(close, closePromises) <- reconcile (get props "close") ;;
  let instance := set "title" (ofResolved title) instance in
  let instance := set "submit" (ofResolved submit) instance in
  let instance := set "close" (ofResolved close) instance in
  instance <- coerceIfPresent "title" instance ;;
  instance <- coerceIfPresent "submit" instance ;;
  instance <- coerceIfPresent "close" instance ;;
  Ok (instance, promises ++ titlePromises ++ submitPromises ++ closePromises).

(** [Input] (lines 383-412). *)
Definition Input_toSlackElement : rule := fun props reconcile promises =>
  let instance :=
    [("type", VStr "input"); ("optional", get props "optional")] in
  '(hint, hintPromises) <- reconcile (get props "hint") ;;
  '(label, labelPromises) <- reconcile (get props "label") ;;
  let instance := set "hint" (ofResolved hint) instance in
  let instance := set "label" (ofResolved label) instance in
  instance <- coerceIfPresent "label" instance ;;
  instance <- coerceIfPresent "hint" instance ;;
  Ok (instance, promises ++ hintPromises ++ labelPromises).

(** [TextField] (lines 422-449). *)
Definition TextField_toSlackElement : rule := fun props reconcile promises =>
  let instance :=
    [("type", VStr "plain_text_input");
     ("initial_value", get props "initialValue");
     ("action_id", get props "action");
     ("max_length", get props "maxLength");
     ("min_length", get props "minLength");
     ("multiline", get props "multiline")] in
  '(placeholder, placeholderPromises) <- reconcile (get props "placeholder") ;;
  let instance := set "placeholder" (ofResolved placeholder) instance in
  instance <- coerceIfPresent "placeholder" instance ;;
  Ok (instance, promises ++ placeholderPromises).

(** [Checkboxes] (lines 458-491): [filter], then [map]. *)
Definition Checkboxes_toSlackElement : rule := fun props reconcile promises =>
  let instance :=
    [("type", VStr "checkboxes");
     ("action_id", get props "action");
     ("options", VArr [])] in
  '(options, optionPromises) <-
    (r <- reconcile (sectionOf props) ;; fieldsOf r) ;;
  '(confirm, confirmPromises) <- reconcile (get props "confirm") ;;
  instance <-
    match options with
    | VArr options =>
        selected <- filterM isSelected options ;;
        let selectedOptions := map withoutUrl selected in
        Ok (set "initial_options"
              (match selectedOptions with
               | [] => VUndef
               | _ :: _ => VArr selectedOptions
               end) instance)
    | _ => Ok instance
    end ;;
  let instance := set "confirm" (ofResolved confirm) instance in
  Ok (instance, promises ++ optionPromises ++ confirmPromises).

(** [OverflowMenu] (lines 500-520). *)
Definition OverflowMenu_toSlackElement : rule :=
  fun props reconcile promises =>
  let instance :=
    [("type", VStr "overflow");
     ("action_id", get props "action");
     ("options", VArr [])] in
  '(confirm, confirmPromises) <- reconcile (get props "confirm") ;;
  let instance := set "confirm" (ofResolved confirm) instance in
  Ok (instance, promises ++ confirmPromises).

(** [RadioButtons] (lines 529-562): [map], then [find]. *)
Definition RadioButtons_toSlackElement : rule :=
  fun props reconcile promises =>
  let instance :=
    [("type", VStr "radio_buttons");
     ("action_id", get props "action");
     ("options", VArr [])] in
  '(options, optionPromises) <-
    (r <- reconcile (sectionOf props) ;; fieldsOf r) ;;
  '(confirm, confirmPromises) <- reconcile (get props "confirm") ;;
  instance <-
    match options with
    | VArr options =>
        selectedOption <- findM isSelected (map withoutUrl options) ;;
        Ok (set "initial_option" (orUndefined selectedOption) instance)
    | _ => Ok instance
    end ;;
  let instance := set "confirm" (ofResolved confirm) instance in
  Ok (instance, promises ++ optionPromises ++ confirmPromises).

(** [OptionGroup] (lines 569-592). *)
Definition OptionGroup_toSlackElement : rule :=
  fun props reconcile promises =>
  let instance :=
    [("isOptionGroup", VFun (VBool true)); ("options", VArr [])] in
  '(label, labelPromises) <- reconcile (get props "label") ;;
  let instance := set "label" (ofResolved label) instance in
  instance <- coerceIfPresent "label" instance ;;
  Ok (instance, promises ++ labelPromises).

(** [groups.reduce((options, group) => { options.push(...group.options);
    return options; }, [])], started from [options]. *)
Fixpoint pushGroupOptions (options : list value) (groups : list value)
  : result (list value) :=
  match groups with
  | [] => Ok options
  | group :: rest =>
      groupOptions <- getProp group "options" ;;
      items <- iterate groupOptions ;;
      pushGroupOptions (options ++ items) rest
  end.

(** The option list of a static menu (lines 669-677 and 813-821): the
    resolved children themselves, unless the first of them carries
    [isOptionGroup]; then the options of all of them. *)
Definition flattenGroups (optionsOrGroups : list value)
  : result (list value) :=
  marker <- getProp (nth 0 optionsOrGroups VUndef) "isOptionGroup" ;;
  if truthy marker then pushGroupOptions [] optionsOrGroups
  else Ok optionsOrGroups.

(** The [filter] object of a conversations menu (lines 708-714 and
    849-855). *)
Definition copyFilter (props : obj) (instance : obj) : result obj :=
  let filter := get props "filter" in
  if truthy filter then
    include <- getProp filter "include" ;;
    shared <- getProp filter "excludeExternalSharedChannels" ;;
    bots <- getProp filter "excludeBotUsers" ;;
    Ok (set "filter"
          (VObj [("include", include);
                 ("exclude_external_shared_channels", shared);
                 ("exclude_bot_users", bots)]) instance)
  else Ok instance.

(** The end of a rule that has put [shown v] into its element: the element
    is returned when the model has the conversion of [v].  The source has
    no such test; when [toString v] is [None] the element it returns is
    outside the model, whatever the rule did without failing before. *)
Definition spelled {A : Type} (v : value) (a : A) : result A :=
  match toString v with
  | Some _ => Ok a
  | None => Throw Unmodelled
  end.

(** [SelectMenu] (lines 644-734).  The type is [props.type + "_select"]. *)
Definition SelectMenu_toSlackElement : rule := fun props reconcile promises =>
  let type := get props "type" in
  let instance :=
    [("type", VStr (shown type ++ "_select"));
     ("action_id", get props "action");
     ("onSearchOptions", get props "onSearchOptions")] in
  '(confirm, confirmPromises) <- reconcile (get props "confirm") ;;
  '(placeholder, placeholderPromises) <- reconcile (get props "placeholder") ;;
  '(optionsOrGroups, optionPromises) <-
    (r <- reconcile (sectionOf props) ;; fieldsOf r) ;;
  '(initialOption, initialOptionPromises) <-
    reconcile (get props "initialOption") ;;
  instance <-
    (if strictEq type "static" then
       match optionsOrGroups with
       | VArr ((_ :: _) as optionsOrGroups) =>
           options <- flattenGroups optionsOrGroups ;;
           selectedOption <- findM isSelected (map withoutUrl options) ;;
           Ok (set "initial_option" (orUndefined selectedOption) instance)
       | _ => Ok instance
       end
     else Ok instance) ;;
  let instance :=
    if strictEq type "external" then
      let instance :=
        match initialOption with
        | Some o => set "initial_option" (withoutUrl (VObj o)) instance
        | None => instance
        end in
      set "min_query_length" (get props "minQueryLength") instance
    else instance in
  let instance :=
    if strictEq type "users"
    then set "initial_user" (get props "initialUser") instance
    else instance in
  let instance :=
    if strictEq type "channels"
    then set "initial_channel" (get props "initialChannel") instance
    else instance in
  instance <-
    (if strictEq type "conversations" then
       copyFilter props
         (set "initial_conversation" (get props "initialConversation")
            instance)
     else Ok instance) ;;
  let instance := set "confirm" (ofResolved confirm) instance in
  let instance := set "placeholder" (ofResolved placeholder) instance in
  instance <- coerceIfPresent "placeholder" instance ;;
  spelled type
    (instance,
     promises ++ confirmPromises ++ placeholderPromises ++ optionPromises
       ++ initialOptionPromises).

(** [MultiSelectMenu] (lines 787-875).  The type is
    ["multi_" + props.type + "_select"].  The second resolution, named
    [initialOptions], is of the children again. *)
Definition MultiSelectMenu_toSlackElement : rule :=
  fun props reconcile promises =>
  let type := get props "type" in
  let instance :=
    [("type", VStr (("multi_" ++ shown type) ++ "_select"));
     ("action_id", get props "action");
     ("max_selected_items", get props "maxSelectedItems");
     ("onSearchOptions", get props "onSearchOptions")] in
  '(confirm, confirmPromises) <- reconcile (get props "confirm") ;;
  '(placeholder, placeholderPromises) <- reconcile (get props "placeholder") ;;
  '(optionsOrGroups, optionPromises) <-
    (r <- reconcile (sectionOf props) ;; fieldsOf r) ;;
  '(initialOptions, initialOptionsPromises) <-
    (r <- reconcile (sectionOf props) ;; fieldsOf r) ;;
  instance <-
    (if strictEq type "static" then
       match optionsOrGroups with
       | VArr ((_ :: _) as optionsOrGroups) =>
           options <- flattenGroups optionsOrGroups ;;
           selectedOptions <- filterM isSelected (map withoutUrl options) ;;
           Ok (set "initial_options" (VArr selectedOptions) instance)
       | _ => Ok instance
       end
     else Ok instance) ;;
  let instance :=
    if strictEq type "external" then
      set "min_query_length" (get props "minQueryLength")
        (set "initial_options" initialOptions instance)
    else instance in
  let instance :=
    if strictEq type "users"
    then set "initial_users" (get props "initialUsers") instance
    else instance in
  let instance :=
    if strictEq type "channels"
    then set "initial_channels" (get props "initialChannels") instance
    else instance in
  instance <-
    (if strictEq type "conversations" then
       copyFilter props
         (set "initial_conversations" (get props "initialConversations")
            instance)
     else Ok instance) ;;
  let instance := set "confirm" (ofResolved confirm) instance in
  let instance := set "placeholder" (ofResolved placeholder) instance in
  instance <- coerceIfPresent "placeholder" instance ;;
  spelled type
    (instance,
     promises ++ confirmPromises ++ placeholderPromises ++ optionPromises
       ++ initialOptionsPromises).

(** [Home] (lines 886-908). *)
Definition Home_toSlackElement : rule := fun props reconcile promises =>
  let instance := [("type", VStr "home"); ("blocks", VArr [])] in
  '(title, titlePromises) <- reconcile (get props "title") ;;
  let instance := set "title" (ofResolved title) instance in
  instance <- coerceIfPresent "title" instance ;;
  Ok (instance, promises ++ titlePromises).

(** A rule that neither resolves anything nor touches [promises]. *)
Definition plain (f : obj -> obj) : rule :=
  fun props _ promises => Ok (f props, promises).

(** The [toSlackElement] prop of each component. *)
Definition toSlackElement (c : component) : rule :=
  match c with
  | CText => plain Text_toSlackElement
  | CButton => Button_toSlackElement
  | CSection => Section_toSlackElement
  | CActions => plain (fun _ => Actions_toSlackElement)
  | CImage => plain Image_toSlackElement
  | CImageBlock => plain ImageBlock_toSlackElement
  | CDivider => plain (fun _ => Divider_toSlackElement)
  | CContext => plain (fun _ => Context_toSlackElement)
  | CConfirm => Confirm_toSlackElement
  | COption => Option_toSlackElement
  | CDatePicker => DatePicker_toSlackElement
  | CMessage => plain Message_toSlackElement
  | CModal => Modal_toSlackElement
  | CInput => Input_toSlackElement
  | CTextField => TextField_toSlackElement
  | CCheckboxes => Checkboxes_toSlackElement
  | COverflowMenu => OverflowMenu_toSlackElement
  | CRadioButtons => RadioButtons_toSlackElement
  | COptionGroup => OptionGroup_toSlackElement
  | CSelectMenu => SelectMenu_toSlackElement
  | CMultiSelectMenu => MultiSelectMenu_toSlackElement
  | CHome => Home_toSlackElement
  end.

(** ** The engine *)

(** Modelled from the spec: the text leaf the engine makes of a bare string
    or number child.  Its kind is the generic ["text"] that [Section] tests
    for, not one of the two kinds a [Text] component can declare. *)
Definition textLeaf (s : string) : obj :=
  [("type", VStr "text"); ("text", VStr s)].

(** Modelled from the spec: the children of an element in declaration
    order; arrays are flattened and absent children are skipped. *)
Fixpoint flattenChildren (children : value) : list value :=
  match children with
  | VArr items =>
      (fix each (l : list value) : list value :=
         match l with
         | [] => []
         | x :: rest => flattenChildren x ++ each rest
         end) items
  | VUndef | VNull | VBool _ => []
  | _ => [children]
  end.

(** Modelled from the spec: [parent.k.push(child)], starting the array when
    the parent has none yet. *)
Definition pushTo (k : string) (child : obj) (parent : obj) : obj :=
  match get parent k with
  | VArr items => set k (VArr (items ++ [VObj child])) parent
  | _ => set k (VArr [VObj child]) parent
  end.

(** Modelled from the spec: text built up from the children, [a + b] for
    a text [a] so far; outside the values that [toString] converts the
    model has no result. *)
Definition appendText (a b : value) : result value :=
  match a, toString b with
  | VStr s, Some t => Ok (VStr (s ++ t))
  | _, _ => Throw Unmodelled
  end.

(** Modelled from the spec: where the engine puts a resolved child (the
    reconciler's child-attachment step is not part of this file's source).
    Root kinds collect [blocks]; Actions and Context collect [elements];
    Section, as the option-collecting container of the menus, collects
    [fields]; OptionGroup, Checkboxes, RadioButtons, OverflowMenu and the
    static menus collect [options] (a static menu puts groups in
    [option_groups]); the child of a Confirm or Option becomes its [text],
    demoted to plain text when generic; Button and Text build their text
    from their children; the child of an Input is its [element]. *)
Definition appendInitialChild (parent child : obj) : result obj :=
  let type := get parent "type" in
  let kind s := strictEq type s in
  match get parent "blocks" with
  | VArr _ => Ok (pushTo "blocks" child parent)
  | _ =>
    if kind "actions" || kind "context" then Ok (pushTo "elements" child parent)
    else if kind "section" then Ok (pushTo "fields" child parent)
    else if kind "static_select" || kind "multi_static_select" then
      if truthy (get child "isOptionGroup")
      then Ok (pushTo "option_groups" child parent)
      else Ok (pushTo "options" child parent)
    else if truthy (get parent "isOptionGroup") || kind "checkboxes"
            || kind "radio_buttons" || kind "overflow" then
      Ok (pushTo "options" child parent)
    else if kind "input" then Ok (set "element" (VObj child) parent)
    else if truthy (get parent "isConfirm") || truthy (get parent "isOption")
    then
      Ok (set "text"
            (VObj (if strictEq (get child "type") "text"
                   then set "type" (VStr "plain_text") child
                   else child)) parent)
    else if kind "button" then
      match get parent "text" with
      | VObj text =>
          appended <- appendText (get text "text") (get child "text") ;;
          Ok (set "text" (VObj (set "text" appended text)) parent)
      | _ => Throw TypeError
      end
    else if kind "mrkdwn" || kind "plain_text" then
      appended <- appendText (get parent "text") (get child "text") ;;
      Ok (set "text" appended parent)
    else Throw Misplaced
  end.

(** Modelled from the spec: the children are resolved one after the other,
    in declaration order, and those that are not [undefined] are attached. *)
Fixpoint appendChildren (reconcile : resolver) (children : list value)
    (instance : obj) (promises : list promise) : result resolved :=
  match children with
  | [] => Ok (Some instance, promises)
  | child :: rest =>
      '(r, childPromises) <- reconcile child ;;
      instance <-
        match r with
        | Some c => appendInitialChild instance c
        | None => Ok instance
        end ;;
      appendChildren reconcile rest instance (promises ++ childPromises)
  end.

(** Modelled from the spec: [resolve(node)].  [undefined] resolves to
    [undefined] with no pending work; a bare string or number is a text
    leaf, for a number that [toString] converts; for an element the engine
    first invokes the conversion rule of its component, handing it
    [reconcile] itself and the list of pending resolutions, then resolves
    and attaches the children.  [depth] bounds the nesting of elements. *)
Fixpoint reconcile (depth : nat) (element : value) : result resolved :=
  match depth with
  | O => Throw Exhausted
  | S depth =>
      match element with
      | VUndef | VNull | VBool _ => Ok (None, [])
      | VStr s => Ok (Some (textLeaf s), [])
      | VNum n =>
          match toString element with
          | Some s => Ok (Some (textLeaf s), [])
          | None => Throw Unmodelled
          end
      | VElem c props =>
          '(instance, promises) <-
            toSlackElement c props (reconcile depth) [] ;;
          appendChildren (reconcile depth)
            (flattenChildren (get props "children")) instance promises
      | VArr _ | VObj _ | VFun _ => Throw Misplaced
      end
  end.

(** [<C {...props}>{children}</C>] *)
Definition jsx (c : component) (props : obj) (children : list value) : value :=
  createElement c (set "children" (VArr children) props).

(** ** Tables used by the statements *)

(** The caption props, per component, whose resolved value is to be plain
    text: the props a rule resolves and then overwrites the kind of. *)
Definition textProps (c : component) : list string :=
  match c with
  | CModal => ["title"; "submit"; "close"]
  | CHome => ["title"]
  | CInput => ["label"; "hint"]
  | CTextField | CDatePicker | CSelectMenu | CMultiSelectMenu =>
      ["placeholder"]
  | COptionGroup => ["label"]
  | CConfirm => ["title"; "confirm"; "deny"]
  | _ => []
  end.

(** Whether an element of a resolved option list is marked selected;
    [false] also for an element that is no option. *)
Definition selected (v : value) : bool :=
  match isSelected v with
  | Ok b => b
  | Throw _ => false
  end.

(** A resolved child seen as a group: its marker and its own options. *)
Definition isGroup (g : obj) : bool := truthy (get g "isOptionGroup").

Definition hasOptions (v : value) : bool :=
  match v with
  | VObj g => match get g "options" with VArr _ => true | _ => false end
  | _ => false
  end.

Definition groupOptions (v : value) : list value :=
  match v with
  | VObj g => match get g "options" with VArr l => l | _ => [] end
  | _ => []
  end.

(** The props each rule hands to [reconcile]. *)
Definition nestedProps (c : component) : list string :=
  match c with
  | CButton | CCheckboxes | COverflowMenu | CRadioButtons => ["confirm"]
  | CSection => ["accessory"; "text"]
  | CConfirm => ["title"; "confirm"; "deny"]
  | COption => ["description"]
  | CDatePicker => ["placeholder"; "confirm"]
  | CModal => ["title"; "submit"; "close"]
  | CInput => ["hint"; "label"]
  | CTextField => ["placeholder"]
  | COptionGroup => ["label"]
  | CSelectMenu => ["confirm"; "placeholder"; "initialOption"]
  | CMultiSelectMenu => ["confirm"; "placeholder"]
  | CHome => ["title"]
  | _ => []
  end.

(** Every nested prop of [c] resolves without an error. *)
Definition propsResolve (reconcile : resolver) (c : component) (props : obj)
  : Prop :=
  Forall (fun k => isOk (reconcile (get props k)) = true) (nestedProps c).

(** The variants declared by [SelectMenuProps] and
    [MultiSelectMenuProps]. *)
Definition declaredVariants : list string :=
  ["static"; "users"; "channels"; "external"; "conversations"].


(** ** Example trees *)

Definition exOption (name : string) (isSelected : bool) : value :=
  jsx COption
    [("value", VStr name); ("url", VStr "https://example.com");
     ("selected", VBool isSelected)]
    [VStr name].

Definition exGroup (label : string) (options : list value) : value :=
  jsx COptionGroup [("label", VStr label)] options.

(** What [exOption name isSelected] resolves to. *)
Definition resolvedOption (name : string) (isSelected : bool) : obj :=
  [("isSelected", VFun (VBool isSelected));
   ("isOption", VFun (VBool true));
   ("value", VStr name);
   ("url", VStr "https://example.com");
   ("description", VUndef);
   ("text", VObj [("type", VStr "plain_text"); ("text", VStr name)])].

(** Its copy as an initial selection. *)
Definition initialOption (name : string) (isSelected : bool) : value :=
  VObj [("isSelected", VFun (VBool isSelected));
        ("isOption", VFun (VBool true));
        ("value", VStr name);
        ("url", VUndef);
        ("description", VUndef);
        ("text", VObj [("type", VStr "plain_text"); ("text", VStr name)])].

Definition resolvedGroup (label : string) (options : list value) : obj :=
  [("isOptionGroup", VFun (VBool true));
   ("options", VArr options);
   ("label", VObj [("type", VStr "plain_text"); ("text", VStr label)])].

(** [<Text type="mrkdwn">*Hi*</Text>] and what it resolves to. *)
Definition exMrkdwn : value :=
  jsx CText [("type", VStr "mrkdwn")] [VStr "*Hi*"].

Definition resolvedMrkdwn : obj :=
  [("type", VStr "mrkdwn"); ("text", VStr "*Hi*"); ("verbatim", VUndef)].

(** The props of [<Modal title={<Text type="mrkdwn">*Hi*</Text>} />]. *)
Definition exModalProps : obj := [("title", exMrkdwn)].

(** The props of [<Section text={<Text type="mrkdwn">*Hi*</Text>} />] and
    of [<Section text="Hi" />]. *)
Definition exSectionProps : obj := [("text", exMrkdwn)].

Definition exSectionStringProps : obj := [("text", VStr "Hi")].

(** The props of [<Confirm title="Sure?" confirm="Yes" deny="No" />], and
    the same without [deny]. *)
Definition exConfirmProps : obj :=
  [("title", VStr "Sure?"); ("confirm", VStr "Yes"); ("deny", VStr "No")].

Definition exConfirmNoDenyProps : obj :=
  [("title", VStr "Sure?"); ("confirm", VStr "Yes")].

(** Three options, the last two selected, as the children of a
    RadioButtons or Checkboxes with action ["pick"]. *)
Definition exFlatProps : obj :=
  [("action", VStr "pick");
   ("children",
    VArr [exOption "a" false; exOption "b" true; exOption "c" true])].

(** The same options in two groups, first under a RadioButtons or
    Checkboxes, then under a static menu. *)
Definition exGroupedChildren : value :=
  VArr [exGroup "first" [exOption "a" false; exOption "b" true];
        exGroup "second" [exOption "c" true]].

Definition exGroupedProps : obj :=
  [("action", VStr "pick"); ("children", exGroupedChildren)].

Definition exMenuProps : obj :=
  [("type", VStr "static"); ("action", VStr "pick");
   ("placeholder", VStr "Pick"); ("children", exGroupedChildren)].

Definition exGroups : list value :=
  [VObj (resolvedGroup "first"
           [VObj (resolvedOption "a" false); VObj (resolvedOption "b" true)]);
   VObj (resolvedGroup "second" [VObj (resolvedOption "c" true)])].

Definition exOptions : list value :=
  [VObj (resolvedOption "a" false); VObj (resolvedOption "b" true);
   VObj (resolvedOption "c" true)].

(** An external multi-select menu given one initial option and, as its
    type has it, no children. *)
Definition exExternalProps : obj :=
  [("type", VStr "external"); ("action", VStr "search");
   ("placeholder", VStr "Search");
   ("initialOptions", VArr [exOption "a" true]);
   ("onSearchOptions", VFun (VArr []))].

(** An external single-select menu given an initial option. *)
Definition exExternalSingleProps : obj :=
  [("type", VStr "external"); ("action", VStr "search");
   ("placeholder", VStr "Search");
   ("initialOption", exOption "a" true);
   ("minQueryLength", VNum 3);
   ("onSearchOptions", VFun (VArr []))].

(** [<Button>Go</Button>] has no [action], [<Option>a</Option>] no
    [value], and no menu declares the variant ["bogus"]. *)
Definition exButtonProps : obj := [("children", VStr "Go")].

Definition exOptionProps : obj := [("children", VStr "a")].

Definition exUnknownMenuProps : obj :=
  [("type", VStr "bogus"); ("action", VStr "pick");
   ("placeholder", VStr "Pick")].


(** Expected results. *)
Definition exModalInstance : obj :=
  [("type", VStr "modal"); ("blocks", VArr []);
   ("title",
    VObj [("type", VStr "plain_text"); ("text", VStr "*Hi*");
          ("verbatim", VUndef)]);
   ("submit", VUndef); ("close", VUndef)].

Definition exConfirmInstance : obj :=
  [("isConfirm", VFun (VBool true)); ("style", VUndef);
   ("title", VObj [("type", VStr "plain_text"); ("text", VStr "Sure?")]);
   ("confirm", VObj [("type", VStr "plain_text"); ("text", VStr "Yes")]);
   ("deny", VObj [("type", VStr "plain_text"); ("text", VStr "No")])].

Definition sectionWith (fields : list value) : obj :=
  [("type", VStr "section"); ("text", VUndef); ("accessory", VUndef);
   ("fields", VArr fields)].

Definition exBareButton : obj :=
  [("type", VStr "button"); ("action_id", VUndef); ("style", VUndef);
   ("url", VUndef);
   ("text", VObj [("type", VStr "plain_text"); ("text", VStr "");
                  ("emoji", VUndef)]);
   ("confirm", VUndef)].

(** ** Tables used by the further statements *)

(** The elements each rule hands to [reconcile], in the order in which it
    pushes what came back with them onto [promises]. *)
Definition resolutions (c : component) (props : obj) : list value :=
  match c with
  | CButton | COverflowMenu => [get props "confirm"]
  | CSection => [get props "accessory"; get props "text"]
  | CConfirm => [get props "title"; get props "confirm"; get props "deny"]
  | COption => [get props "description"]
  | CDatePicker => [get props "placeholder"; get props "confirm"]
  | CModal => [get props "title"; get props "submit"; get props "close"]
  | CInput => [get props "hint"; get props "label"]
  | CTextField => [get props "placeholder"]
  | CCheckboxes | CRadioButtons => [sectionOf props; get props "confirm"]
  | COptionGroup => [get props "label"]
  | CSelectMenu =>
      [get props "confirm"; get props "placeholder"; sectionOf props;
       get props "initialOption"]
  | CMultiSelectMenu =>
      [get props "confirm"; get props "placeholder"; sectionOf props;
       sectionOf props]
  | CHome => [get props "title"]
  | _ => []
  end.

(** The rules that resolve their children themselves, wrapped in a
    Section, to look for selected options. *)
Definition collectsOptions (c : component) : bool :=
  match c with
  | CCheckboxes | CRadioButtons | CSelectMenu | CMultiSelectMenu => true
  | _ => false
  end.

(** [...child.options]: what the flattening spreads for one child. *)
Definition ownOptions (child : value) : result (list value) :=
  o <- getProp child "options" ;; iterate o.

(** The nested elements a rule stores as they were resolved. *)
Definition passedOn (c : component) : list string :=
  match c with
  | CButton | CDatePicker | CCheckboxes | COverflowMenu | CRadioButtons
  | CSelectMenu | CMultiSelectMenu => ["confirm"]
  | CSection => ["accessory"]
  | _ => []
  end.

(** The variants whose initial selection is an identifier, or a list of
    them, copied from a prop: menu, variant, prop, wire field. *)
Definition copiedSelections
  : list (component * string * string * string) :=
  [(CSelectMenu, "users", "initialUser", "initial_user");
   (CSelectMenu, "channels", "initialChannel", "initial_channel");
   (CSelectMenu, "conversations", "initialConversation",
    "initial_conversation");
   (CMultiSelectMenu, "users", "initialUsers", "initial_users");
   (CMultiSelectMenu, "channels", "initialChannels", "initial_channels");
   (CMultiSelectMenu, "conversations", "initialConversations",
    "initial_conversations")].

(** The filter of a conversations menu under its wire names. *)
Definition wireFilter (filter : obj) : obj :=
  [("include", get filter "include");
   ("exclude_external_shared_channels",
    get filter "excludeExternalSharedChannels");
   ("exclude_bot_users", get filter "excludeBotUsers")].

(** What the wire type of a menu starts with. *)
Definition menuPrefix (c : component) : string :=
  match c with
  | CMultiSelectMenu => "multi_"
  | _ => ""
  end.

(** Props that a rule never looks at: the handlers, and the children
    unless the rule collects options from them. *)
Definition unreadProps (c : component) : list string :=
  if collectsOptions c then ["onClick"; "onSelect"]
  else ["onClick"; "onSelect"; "children"].

(** The promises that came back with a resolution. *)
Definition promisesOf (r : result resolved) : list promise :=
  match r with
  | Ok (_, ps) => ps
  | Throw _ => []
  end.

(** All that a rule pushes. *)
Definition pushed (reconcile : resolver) (c : component) (props : obj)
  : list promise :=
  concat (map (fun e => promisesOf (reconcile e)) (resolutions c props)).

(** A resolver with pending work, for the examples: a string resolves to
    a text leaf and one promise, numbered by its length; an element to a
    section without fields and promise [0]; anything else to [undefined]. *)
Definition exPendingResolver : resolver := fun e =>
  match e with
  | VStr s => Ok (Some (textLeaf s), [Pending (String.length s)])
  | VElem _ _ => Ok (Some (sectionWith []), [Pending 0])
  | _ => Ok (None, [])
  end.

(** A resolver that fails on elements. *)
Definition exFailingResolver : resolver := fun e =>
  match e with
  | VStr s => Ok (Some (textLeaf s), [])
  | VElem _ _ => Throw Misplaced
  | _ => Ok (None, [])
  end.

(** The props of a Button that asks for confirmation. *)
Definition exConfirmingButtonProps : obj :=
  [("action", VStr "go"); ("children", VStr "Go");
   ("confirm", jsx CConfirm exConfirmProps [VStr "Really?"])].

(** A resolver that loses elements. *)
Definition exLosingResolver : resolver := fun e =>
  match e with
  | VStr s => Ok (Some (textLeaf s), [])
  | _ => Ok (None, [])
  end.

(** A users menu. *)
Definition exUsersMenuProps : obj :=
  [("type", VStr "users"); ("action", VStr "who");
   ("placeholder", VStr "Pick"); ("initialUser", VStr "U123")].

(** Options a, b, c with none selected. *)
Definition exUnselectedProps : obj :=
  [("action", VStr "pick");
   ("children",
    VArr [exOption "a" false; exOption "b" false; exOption "c" false])].

Definition exUnselected : list value :=
  [VObj (resolvedOption "a" false); VObj (resolvedOption "b" false);
   VObj (resolvedOption "c" false)].

(** A group followed by a bare option, under a static menu. *)
Definition exMixedProps : obj :=
  [("type", VStr "static"); ("action", VStr "pick");
   ("placeholder", VStr "Pick");
   ("children",
    VArr [exGroup "first" [exOption "a" false]; exOption "b" true])].

(** An option followed by a button, under Checkboxes. *)
Definition exStrayProps : obj :=
  [("action", VStr "pick");
   ("children",
    VArr [exOption "a" true; jsx CButton [("action", VStr "go")] [VStr "Go"]])].

(** What the button of [exStrayProps] resolves to. *)
Definition resolvedGoButton : obj :=
  [("type", VStr "button"); ("action_id", VStr "go"); ("style", VUndef);
   ("url", VUndef);
   ("text", VObj [("type", VStr "plain_text"); ("text", VStr "Go");
                  ("emoji", VUndef)]);
   ("confirm", VUndef)].

(** Checkboxes or RadioButtons without children. *)
Definition exChildlessProps : obj := [("action", VStr "pick")].

(** A conversations menu with a filter. *)
Definition exConversationsProps : obj :=
  [("type", VStr "conversations"); ("action", VStr "where");
   ("placeholder", VStr "Pick");
   ("initialConversations", VArr [VStr "C1"; VStr "C2"]);
   ("filter",
    VObj [("include", VArr [VStr "im"; VStr "public"]);
          ("excludeBotUsers", VBool true)])].

(** An external menu without an initial option, with children all the
    same. *)
Definition exExternalNoInitialProps : obj :=
  [("type", VStr "external"); ("action", VStr "search");
   ("placeholder", VStr "Search"); ("minQueryLength", VNum 2);
   ("onSearchOptions", VFun (VArr []));
   ("children", VArr [exOption "a" true])].

(** A menu written without [type]. *)
Definition exUntypedMenuProps : obj :=
  [("action", VStr "pick"); ("placeholder", VStr "Pick")].

(** An option with a description. *)
Definition exDescribedOptionProps : obj :=
  [("value", VStr "a"); ("url", VStr "https://example.com");
   ("selected", VBool true); ("description", exMrkdwn);
   ("children", VStr "a")].

(** ** What a rule needs to return an element *)

(** Every element of an option list answers [isSelected()]. *)
Definition answering (options : list value) : Prop :=
  Forall (fun v => isOk (isSelected v) = true) options.

(** The children a resolved [Section] holds: its [fields] when they are an
    array, none otherwise. *)
Definition resolvedChildren (section : obj) : list value :=
  match get section "fields" with
  | VArr children => children
  | _ => []
  end.

(** What a rule needs, beyond nested props that resolve, to return an
    element.  Confirm assigns to its three captions without a test, so all
    three must have resolved to an element.  The four rules that collect
    options need their children's resolution to be an element and every
    option they ask to answer [isSelected()]; a menu asks the flattened
    options, and only when it is static and has children.  A menu's [type]
    is to be a string.  No other rule needs anything. *)
Definition ready (reconcile : resolver) (c : component) (props : obj)
  : Prop :=
  match c with
  | CConfirm =>
      Forall (fun k => exists o ps, reconcile (get props k) = Ok (Some o, ps))
        ["title"; "confirm"; "deny"]
  | CCheckboxes | CRadioButtons =>
      exists section sp,
        reconcile (sectionOf props) = Ok (Some section, sp)
        /\ answering (resolvedChildren section)
  | CSelectMenu | CMultiSelectMenu =>
      exists tag section sp,
        get props "type" = VStr tag
        /\ reconcile (sectionOf props) = Ok (Some section, sp)
        /\ (tag = "static" -> resolvedChildren section <> [] ->
            exists options,
              flattenGroups (resolvedChildren section) = Ok options
              /\ answering options)
  | _ => True
  end.


(** A static multi-select menu with an empty list of children, and one
    whose only option is not selected. *)
Definition exEmptyMenuProps : obj :=
  [("type", VStr "static"); ("action", VStr "pick");
   ("placeholder", VStr "Pick"); ("children", VArr [])].

Definition exLoneMenuProps : obj :=
  [("type", VStr "static"); ("action", VStr "pick");
   ("placeholder", VStr "Pick"); ("children", VArr [exOption "a" false])].

(** ** Properties of objects *)

Lemma get_set_same (k : string) (v : value) (o : obj) :
  get (set k v o) k = v.
Proof.
  induction o as [|[k' v'] o IH]; simpl.
  - now rewrite String.eqb_refl.
  - destruct (String.eqb k' k) eqn:E; simpl.
    + now rewrite String.eqb_refl.
    + now rewrite E.
Qed.

Lemma get_set_other (k k' : string) (v : value) (o : obj) :
  k <> k' -> get (set k v o) k' = get o k'.
Proof.
  intros Hne. apply String.eqb_neq in Hne.
  induction o as [|[a b] o IH]; simpl.
  - now rewrite Hne.
  - destruct (String.eqb a k) eqn:E; simpl.
    + apply String.eqb_eq in E. subst a. now rewrite Hne.
    + destruct (String.eqb a k'); auto.
Qed.

Lemma set_set_same (k : string) (v w : value) (o : obj) :
  set k v (set k w o) = set k v o.
Proof.
  induction o as [|[a b] o IH]; simpl.
  - now rewrite String.eqb_refl.
  - destruct (String.eqb a k) eqn:E; simpl.
    + now rewrite String.eqb_refl.
    + now rewrite E, IH.
Qed.

Lemma get_if_set (b : bool) (k k' : string) (v : value) (o : obj) :
  k <> k' -> get (if b then set k v o else o) k' = get o k'.
Proof.
  intros Hne. destruct b; [now apply get_set_other | reflexivity].
Qed.

Lemma bind_Ok_inv {A B : Type} (r : result A) (k : A -> result B) (b : B) :
  bind r k = Ok b -> exists a, r = Ok a /\ k a = Ok b.
Proof.
  destruct r as [a|e]; simpl; intros H; [eauto | discriminate].
Qed.

(** Peel the first [bind] of a successful run. *)
Ltac inv_bind H :=
  let x := fresh "x" in
  let Hx := fresh "Hx" in
  apply bind_Ok_inv in H; destruct H as (x & Hx & H);
  try match type of H with
      | context [match x with pair _ _ => _ end] => destruct x
      end.

Lemma spelled_Ok {A : Type} (v : value) (a b : A) :
  spelled v a = Ok b -> Ok a = Ok b.
Proof.
  unfold spelled. destruct (toString v); [auto | discriminate].
Qed.

Lemma spelled_string {A : Type} (s : string) (a : A) :
  spelled (VStr s) a = Ok a.
Proof.
  reflexivity.
Qed.

Lemma isOk_true {A : Type} (r : result A) :
  isOk r = true -> exists a, r = Ok a.
Proof.
  destruct r; simpl; intros H; [eauto | discriminate].
Qed.

Lemma propsResolve_prop (reconcile : resolver) (c : component) (props : obj)
    (k : string) :
  propsResolve reconcile c props -> In k (nestedProps c) ->
  exists r ps, reconcile (get props k) = Ok (r, ps).
Proof.
  intros H Hin. unfold propsResolve in H. rewrite Forall_forall in H.
  destruct (isOk_true _ (H k Hin)) as [[r ps] E]. eauto.
Qed.

(** Name what a nested prop of [c] resolves to. *)
Ltac resolve_prop H c k r ps E :=
  destruct (propsResolve_prop _ c _ k H) as (r & ps & E);
  [simpl; tauto|].

Lemma assignPlainText_set (k : string) (o : obj) (instance : obj) :
  assignPlainText k (set k (VObj o) instance)
  = Ok (set k (VObj (set "type" (VStr "plain_text") o)) instance).
Proof.
  unfold assignPlainText. now rewrite get_set_same, set_set_same.
Qed.

Lemma coerceIfPresent_set (k : string) (r : option obj) (instance : obj) :
  coerceIfPresent k (set k (ofResolved r) instance)
  = Ok (set k (ofResolved (option_map (set "type" (VStr "plain_text")) r))
          instance).
Proof.
  unfold coerceIfPresent. rewrite get_set_same.
  destruct r as [o|]; simpl.
  - apply assignPlainText_set.
  - reflexivity.
Qed.

(** ** Text *)

(** C7. A Text element created without a [type] gets the plain_text kind
    from [Text.defaultProps]; the converted element has the kind of its
    props, carries [verbatim] exactly when that kind is mrkdwn and [emoji]
    exactly when it is plain_text, and the field then holds the prop. *)
Theorem Text_default_kind_and_flags (props : obj) :
  let p := withDefaults Text_defaultProps props in
  let instance := Text_toSlackElement p in
  get p "type"
  = match get props "type" with
    | VUndef => VStr "plain_text"
    | declared => declared
    end
  /\ get instance "type" = get p "type"
  /\ has instance "verbatim" = strictEq (get instance "type") "mrkdwn"
  /\ has instance "emoji" = strictEq (get instance "type") "plain_text"
  /\ get instance "verbatim"
     = (if strictEq (get p "type") "mrkdwn" then get props "verbatim"
        else VUndef)
  /\ get instance "emoji"
     = (if strictEq (get p "type") "plain_text" then get props "emoji"
        else VUndef).
Proof.
  intros p instance.
  assert (Hother : forall k, k <> "type" -> get p k = get props k).
  { intros k Hk. subst p. unfold Text_defaultProps. simpl.
    destruct (get props "type"); auto.
    apply get_set_other. congruence. }
  assert (Htype : get p "type"
                  = match get props "type" with
                    | VUndef => VStr "plain_text"
                    | declared => declared
                    end).
  { subst p. unfold Text_defaultProps. simpl.
    destruct (get props "type") eqn:E; rewrite ?E; auto.
    apply get_set_same. }
  split; [exact Htype|].
  subst instance. clearbody p. clear Htype. unfold Text_toSlackElement.
  rewrite <- (Hother "verbatim"), <- (Hother "emoji") by discriminate.
  destruct (strictEq (get p "type") "mrkdwn") eqn:Em.
  - assert (Ep : strictEq (get p "type") "plain_text" = false).
    { destruct (get p "type") as [| | | |s| | | |]; try discriminate.
      simpl in *. apply String.eqb_eq in Em. now subst s. }
    cbn. rewrite Em, Ep. repeat split; reflexivity.
  - destruct (strictEq (get p "type") "plain_text") eqn:Ep; cbn;
      rewrite ?Em, ?Ep; repeat split; reflexivity.
Qed.

(** ** Confirm *)

(** C10. Confirm assigns the plain_text kind to its resolved title, confirm
    and deny without testing them first: once the three props have been
    resolved, conversion succeeds exactly when all three resolved to an
    element, and it then returns them with their kind overwritten; when any
    of them resolved to [undefined] it throws a [TypeError]. *)
Theorem Confirm_throws_unless_all_defined
    (reconcile : resolver) (props : obj) (promises : list promise)
    (title confirm deny : option obj) (tp cp dp : list promise) :
  reconcile (get props "title") = Ok (title, tp) ->
  reconcile (get props "confirm") = Ok (confirm, cp) ->
  reconcile (get props "deny") = Ok (deny, dp) ->
  Confirm_toSlackElement props reconcile promises
  = match title, confirm, deny with
    | Some t, Some c, Some d =>
        Ok ([("isConfirm", VFun (VBool true));
             ("style", get props "style");
             ("title", VObj (set "type" (VStr "plain_text") t));
             ("confirm", VObj (set "type" (VStr "plain_text") c));
             ("deny", VObj (set "type" (VStr "plain_text") d))],
            promises ++ tp ++ cp ++ dp)
    | _, _, _ => Throw TypeError
    end.
Proof.
  intros Ht Hc Hd. unfold Confirm_toSlackElement.
  rewrite Ht, Hc, Hd.
  destruct title, confirm, deny; reflexivity.
Qed.

(** By contrast Modal tests each caption before it assigns: with all three
    unresolved it still returns an element. *)
Lemma Modal_guards_its_captions
    (reconcile : resolver) (props : obj) (promises : list promise)
    (tp sp cp : list promise) :
  reconcile (get props "title") = Ok (None, tp) ->
  reconcile (get props "submit") = Ok (None, sp) ->
  reconcile (get props "close") = Ok (None, cp) ->
  Modal_toSlackElement props reconcile promises
  = Ok ([("type", VStr "modal"); ("blocks", VArr []); ("title", VUndef);
         ("submit", VUndef); ("close", VUndef)],
        promises ++ tp ++ sp ++ cp).
Proof.
  intros Ht Hs Hc. unfold Modal_toSlackElement.
  rewrite Ht, Hs, Hc. reflexivity.
Qed.

(** ** Section *)

(** C6, as the code has it. Section overwrites the kind of its resolved text
    only when that kind is the generic ["text"] of a bare string; a text
    resolved with any other kind, the mrkdwn of a Text component included,
    is passed on as it is. *)
Theorem Section_text_kind
    (reconcile : resolver) (props : obj) (promises : list promise)
    (accessory : option obj) (ap : list promise)
    (t : obj) (tp : list promise) :
  reconcile (get props "accessory") = Ok (accessory, ap) ->
  reconcile (get props "text") = Ok (Some t, tp) ->
  exists instance,
    Section_toSlackElement props reconcile promises
    = Ok (instance, promises ++ ap ++ tp)
    /\ get instance "text"
       = VObj (if strictEq (get t "type") "text"
               then set "type" (VStr "plain_text") t
               else t).
Proof.
  intros Ha Ht. unfold Section_toSlackElement. rewrite Ha, Ht. simpl.
  destruct (strictEq (get t "type") "text"); eexists; split; reflexivity.
Qed.

(** ** Captions *)

(** What a rule returns holds each resolved caption under the same name,
    with its kind overwritten. *)
Lemma caption_kind_if_converted
    (c : component) (k : string) (reconcile : resolver) (props : obj)
    (promises promises' : list promise) (instance o : obj)
    (ps : list promise) :
  In k (textProps c) ->
  reconcile (get props k) = Ok (Some o, ps) ->
  toSlackElement c props reconcile promises = Ok (instance, promises') ->
  get instance k = VObj (set "type" (VStr "plain_text") o).
Proof.
  intros Hin Hk Hrun.
  destruct c; simpl in Hin; try contradiction;
    repeat (destruct Hin as [<-|Hin]; [|try contradiction]);
    simpl in Hrun.
  all: unfold Modal_toSlackElement, Home_toSlackElement, Input_toSlackElement,
         TextField_toSlackElement, DatePicker_toSlackElement,
         SelectMenu_toSlackElement, MultiSelectMenu_toSlackElement,
         OptionGroup_toSlackElement, Confirm_toSlackElement in Hrun.
  all: repeat inv_bind Hrun.
  all: try apply spelled_Ok in Hrun.
  all: inversion Hrun; clear Hrun; subst.
  all: repeat match goal with
       | H : ?f ?e = Ok (?a, _), H' : ?f ?e = Ok (Some _, _) |- _ =>
           is_var a; rewrite H' in H; inversion H; clear H; subst
       end.
  (* rules that end with the guarded assignment to the caption itself *)
  all: try match goal with
       | H : coerceIfPresent ?k (set ?k (ofResolved _) _) = Ok _ |- _ =>
           rewrite coerceIfPresent_set in H; inversion H; subst;
           apply get_set_same
       end.
  (* Modal, Input and Confirm: run the remaining assignments *)
  all: repeat match goal with
       | a : option obj |- _ => destruct a
       end.
  all: repeat (cbn in *;
               match goal with
               | H : Ok _ = Ok _ |- _ => inversion H; clear H; subst
               | H : Throw _ = Ok _ |- _ => discriminate H
               end).
  all: cbn; reflexivity.
Qed.

(** ** Selection *)

Lemma isSelected_object (v : value) (b : bool) :
  isSelected v = Ok b -> exists o, v = VObj o.
Proof.
  destruct v; try discriminate; eauto.
Qed.

Lemma isSelected_withoutUrl (v : value) (b : bool) :
  isSelected v = Ok b -> isSelected (withoutUrl v) = Ok b.
Proof.
  intros H. destruct (isSelected_object _ _ H) as [o ->].
  unfold isSelected, callMethod, withoutUrl in *. simpl in *.
  rewrite get_set_other by discriminate. exact H.
Qed.

Lemma findM_first_selected (before after : list value) (x : value) :
  Forall (fun v => isSelected v = Ok false) before ->
  isSelected x = Ok true ->
  findM isSelected (map withoutUrl (before ++ x :: after))
  = Ok (Some (withoutUrl x)).
Proof.
  intros Hbefore Hx. induction Hbefore as [|v before Hv _ IH]; simpl.
  - now rewrite (isSelected_withoutUrl _ _ Hx).
  - now rewrite (isSelected_withoutUrl _ _ Hv).
Qed.

Lemma filterM_selected (options : list value) :
  Forall (fun v => isOk (isSelected v) = true) options ->
  filterM isSelected (map withoutUrl options)
  = Ok (map withoutUrl (filter selected options)).
Proof.
  induction 1 as [|v options Hv _ IH]; simpl; [reflexivity|].
  apply isOk_true in Hv. destruct Hv as [b Hb].
  rewrite (isSelected_withoutUrl _ _ Hb), IH. simpl.
  unfold selected. rewrite Hb. now destruct b.
Qed.

Lemma pushGroupOptions_concat (groups acc : list value) :
  forallb hasOptions groups = true ->
  pushGroupOptions acc groups = Ok (acc ++ concat (map groupOptions groups)).
Proof.
  revert acc. induction groups as [|g groups IH]; simpl; intros acc H.
  - now rewrite app_nil_r.
  - apply andb_prop in H. destruct H as [Hg Hrest].
    destruct g as [| | | | | |g| |]; try discriminate. simpl in *.
    destruct (get g "options"); try discriminate. simpl.
    rewrite IH by assumption. now rewrite app_assoc.
Qed.

(** C2, for the static menus. The option list of a static SelectMenu or
    MultiSelectMenu is decided by the first resolved child alone: when it is
    not a group the children are the options, whatever follows; when it is
    one (and every child has an [options] array) the list is the groups'
    own options one group after the other, so its length is the sum of the
    groups' option counts. *)
Theorem flattenGroups_by_first_child (g : obj) (rest : list value) :
  (isGroup g = true -> forallb hasOptions (VObj g :: rest) = true) ->
  flattenGroups (VObj g :: rest)
  = Ok (if isGroup g
        then concat (map groupOptions (VObj g :: rest))
        else VObj g :: rest)
  /\ List.length (concat (map groupOptions (VObj g :: rest)))
     = list_sum (map (fun v => List.length (groupOptions v)) (VObj g :: rest)).
Proof.
  intros H. split.
  - unfold flattenGroups, isGroup in *. cbn [nth getProp bind].
    destruct (truthy (get g "isOptionGroup")).
    + rewrite pushGroupOptions_concat by auto. reflexivity.
    + reflexivity.
  - generalize (VObj g :: rest). intros l.
    induction l as [|v l IH]; simpl; [reflexivity|].
    now rewrite length_app, IH.
Qed.

Lemma flattenGroups_nonempty (children options : list value) :
  flattenGroups children = Ok options -> children <> [].
Proof.
  destruct children; [discriminate | discriminate].
Qed.

(** C3. RadioButtons takes the resolved children as its option list; a
    static SelectMenu takes the flattened list.  In both, when the list
    holds a selected option, the first one in list order becomes
    [initial_option], as a copy whose [url] is [undefined]; options marked
    selected further down are not looked at. *)
Theorem first_selected_option_wins
    (c : component) (reconcile : resolver) (props : obj)
    (promises : list promise) (section : obj) (sp : list promise)
    (children options before after : list value) (o : obj) :
  (c = CRadioButtons /\ options = children)
  \/ (c = CSelectMenu /\ get props "type" = VStr "static"
      /\ flattenGroups children = Ok options) ->
  propsResolve reconcile c props ->
  reconcile (sectionOf props) = Ok (Some section, sp) ->
  get section "fields" = VArr children ->
  options = before ++ VObj o :: after ->
  Forall (fun v => isSelected v = Ok false) before ->
  isSelected (VObj o) = Ok true ->
  exists instance promises',
    toSlackElement c props reconcile promises = Ok (instance, promises')
    /\ get instance "initial_option" = VObj (set "url" VUndef o).
Proof.
  intros Hc Hprops Hsec Hfields Hoptions Hbefore Ho.
  pose proof (findM_first_selected before after (VObj o) Hbefore Ho) as Hfind.
  rewrite <- Hoptions in Hfind.
  destruct Hc as [[-> ->] | (-> & Htype & Hflat)]; simpl toSlackElement.
  - resolve_prop Hprops CRadioButtons "confirm" confirm cp Hconfirm.
    unfold RadioButtons_toSlackElement.
    rewrite Hsec. cbn [bind fieldsOf fst snd]. rewrite Hfields, Hconfirm.
    cbn [bind]. rewrite Hfind. cbn [bind orUndefined].
    eexists. eexists. split; [reflexivity|].
    rewrite get_set_other by discriminate. apply get_set_same.
  - resolve_prop Hprops CSelectMenu "confirm" confirm cp Hconfirm.
    resolve_prop Hprops CSelectMenu "placeholder" ph pp Hph.
    resolve_prop Hprops CSelectMenu "initialOption" io ip Hio.
    pose proof (flattenGroups_nonempty _ _ Hflat) as Hne.
    destruct children as [|child children]; [contradiction|].
    unfold SelectMenu_toSlackElement. cbv zeta.
    rewrite Hconfirm, Hph, Hsec, Hio. cbn [bind fieldsOf fst snd].
    rewrite Hfields, Htype.
    change (strictEq (VStr "static") "static") with true.
    change (strictEq (VStr "static") "external") with false.
    change (strictEq (VStr "static") "users") with false.
    change (strictEq (VStr "static") "channels") with false.
    change (strictEq (VStr "static") "conversations") with false.
    cbv iota. rewrite Hflat. cbn [bind]. rewrite Hfind. cbn [bind orUndefined].
    rewrite coerceIfPresent_set. cbn [bind].
    eexists. eexists. split; [reflexivity|].
    rewrite !get_set_other by discriminate. apply get_set_same.
Qed.

(** Checkboxes and RadioButtons put the question [isSelected()] to every
    resolved child as it is.  A first child that does not answer it, as a
    group does not, makes both throw. *)
Lemma choices_do_not_flatten
    (reconcile : resolver) (props : obj) (promises : list promise)
    (section : obj) (sp : list promise) (g : obj) (rest : list value) :
  reconcile (sectionOf props) = Ok (Some section, sp) ->
  get section "fields" = VArr (VObj g :: rest) ->
  propsResolve reconcile CCheckboxes props ->
  call (get g "isSelected") = Throw TypeError ->
  Checkboxes_toSlackElement props reconcile promises = Throw TypeError
  /\ RadioButtons_toSlackElement props reconcile promises = Throw TypeError.
Proof.
  intros Hsec Hfields Hprops Hcall.
  resolve_prop Hprops CCheckboxes "confirm" confirm cp Hconfirm.
  unfold Checkboxes_toSlackElement, RadioButtons_toSlackElement.
  rewrite Hsec. cbn [bind fieldsOf fst snd]. rewrite Hfields, Hconfirm.
  cbn [bind map filterM findM].
  unfold isSelected, callMethod, withoutUrl. cbn [getProp ownProps bind].
  rewrite get_set_other by discriminate. rewrite Hcall.
  split; reflexivity.
Qed.

(** ** Worked examples *)

(** The theorem at a Confirm with all three captions, and at one with no
    [deny]. *)
Lemma Confirm_throws_unless_all_defined_witness :
  Confirm_toSlackElement exConfirmProps (reconcile 2) []
  = Ok (exConfirmInstance, [])
  /\ Confirm_toSlackElement exConfirmNoDenyProps (reconcile 2) []
     = Throw TypeError.
Proof.
  split.
  - exact (Confirm_throws_unless_all_defined (reconcile 2) exConfirmProps []
             (Some (textLeaf "Sure?")) (Some (textLeaf "Yes"))
             (Some (textLeaf "No")) [] [] [] eq_refl eq_refl eq_refl).
  - exact (Confirm_throws_unless_all_defined (reconcile 2)
             exConfirmNoDenyProps []
             (Some (textLeaf "Sure?")) (Some (textLeaf "Yes")) None
             [] [] [] eq_refl eq_refl eq_refl).
Defined.

(** The theorem at [<Section text="Hi" />] and at a Section whose text is
    a mrkdwn Text. *)
Lemma Section_text_kind_witness :
  (exists instance,
     Section_toSlackElement exSectionStringProps (reconcile 2) []
     = Ok (instance, [])
     /\ get instance "text"
        = VObj [("type", VStr "plain_text"); ("text", VStr "Hi")])
  /\ (exists instance,
        Section_toSlackElement exSectionProps (reconcile 3) []
        = Ok (instance, [])
        /\ get instance "text" = VObj resolvedMrkdwn).
Proof.
  split.
  - exact (Section_text_kind (reconcile 2) exSectionStringProps [] None []
             (textLeaf "Hi") [] eq_refl eq_refl).
  - exact (Section_text_kind (reconcile 3) exSectionProps [] None []
             resolvedMrkdwn [] eq_refl eq_refl).
Defined.

(** C6, as stated, fails: a Section whose text is a Text component that
    declared mrkdwn resolves to a section whose text is still mrkdwn. *)
Lemma Section_keeps_mrkdwn :
  get exSectionProps "text"
  = createElement CText [("type", VStr "mrkdwn"); ("children", VArr [VStr "*Hi*"])]
  /\ exists instance text,
       reconcile 4 (createElement CSection exSectionProps)
       = Ok (Some instance, [])
       /\ get instance "text" = VObj text
       /\ get text "type" = VStr "mrkdwn".
Proof.
  split; [reflexivity|].
  eexists. eexists. split; [reflexivity|]. split; reflexivity.
Qed.

(** The theorem at two groups of two and one options, and at a list that
    starts with an option and goes on with groups. *)
Lemma flattenGroups_by_first_child_witness :
  (flattenGroups exGroups = Ok exOptions
   /\ List.length exOptions = 2 + 1)
  /\ flattenGroups (VObj (resolvedOption "a" false) :: exGroups)
     = Ok (VObj (resolvedOption "a" false) :: exGroups).
Proof.
  split.
  - assert (H : isGroup (resolvedGroup "first"
                  [VObj (resolvedOption "a" false);
                   VObj (resolvedOption "b" true)]) = true ->
                forallb hasOptions exGroups = true) by reflexivity.
    exact (flattenGroups_by_first_child _ _ H).
  - assert (H : isGroup (resolvedOption "a" false) = true ->
                forallb hasOptions
                  (VObj (resolvedOption "a" false) :: exGroups) = true)
      by (intros H; discriminate H).
    exact (proj1 (flattenGroups_by_first_child _ _ H)).
Defined.

(** C2, as stated, fails for Checkboxes and RadioButtons: given groups they
    do not flatten anything; they ask the group itself whether it is
    selected, which throws.  The static menus do flatten the same
    children. *)
Lemma Checkboxes_and_RadioButtons_do_not_flatten :
  reconcile 4 (sectionOf exGroupedProps) = Ok (Some (sectionWith exGroups), [])
  /\ Checkboxes_toSlackElement exGroupedProps (reconcile 4) []
     = Throw TypeError
  /\ RadioButtons_toSlackElement exGroupedProps (reconcile 4) []
     = Throw TypeError
  /\ exists instance,
       MultiSelectMenu_toSlackElement exMenuProps (reconcile 4) []
       = Ok (instance, [])
       /\ get instance "initial_options"
          = VArr [initialOption "b" true; initialOption "c" true].
Proof.
  repeat split; try reflexivity.
  eexists. split; reflexivity.
Qed.

(** The theorem at a RadioButtons with options a, b, c and at a static
    SelectMenu with the groups (a, b) and (c); b and c are selected. *)
Lemma first_selected_option_wins_witness :
  (exists instance promises',
     toSlackElement CRadioButtons exFlatProps (reconcile 4) []
     = Ok (instance, promises')
     /\ get instance "initial_option" = initialOption "b" true)
  /\ (exists instance promises',
        toSlackElement CSelectMenu exMenuProps (reconcile 4) []
        = Ok (instance, promises')
        /\ get instance "initial_option" = initialOption "b" true).
Proof.
  assert (Hbefore : Forall (fun v => isSelected v = Ok false)
                      [VObj (resolvedOption "a" false)])
    by (repeat constructor).
  split.
  - assert (Hprops : propsResolve (reconcile 4) CRadioButtons exFlatProps)
      by (repeat constructor).
    exact (first_selected_option_wins CRadioButtons (reconcile 4) exFlatProps
             [] (sectionWith exOptions) [] exOptions exOptions
             [VObj (resolvedOption "a" false)]
             [VObj (resolvedOption "c" true)] (resolvedOption "b" true)
             (or_introl (conj eq_refl eq_refl)) Hprops eq_refl eq_refl
             eq_refl Hbefore eq_refl).
  - assert (Hprops : propsResolve (reconcile 4) CSelectMenu exMenuProps)
      by (repeat constructor).
    exact (first_selected_option_wins CSelectMenu (reconcile 4)
             exMenuProps [] (sectionWith exGroups) [] exGroups exOptions
             [VObj (resolvedOption "a" false)]
             [VObj (resolvedOption "c" true)] (resolvedOption "b" true)
             (or_intror (conj eq_refl (conj eq_refl eq_refl))) Hprops
             eq_refl eq_refl eq_refl Hbefore eq_refl).
Defined.

(** ** External menus *)

Lemma get_absent (o : obj) (k : string) :
  has o k = false -> get o k = VUndef.
Proof.
  induction o as [|[a b] o IH]; simpl; [reflexivity|].
  destruct (String.eqb a k); [discriminate | exact IH].
Qed.

(** The single-select half of C5: an external SelectMenu copies the
    resolved [initialOption] prop, with [url] cleared, and
    [minQueryLength]; its children play no part. *)
Lemma SelectMenu_external_initial_option
    (reconcile : resolver) (props : obj) (promises : list promise)
    (section : obj) (sp : list promise) (o : obj) (ip : list promise) :
  get props "type" = VStr "external" ->
  propsResolve reconcile CSelectMenu props ->
  reconcile (sectionOf props) = Ok (Some section, sp) ->
  reconcile (get props "initialOption") = Ok (Some o, ip) ->
  exists instance promises',
    SelectMenu_toSlackElement props reconcile promises
    = Ok (instance, promises')
    /\ get instance "initial_option" = VObj (set "url" VUndef o)
    /\ get instance "min_query_length" = get props "minQueryLength".
Proof.
  intros Htype Hprops Hsec Hio.
  resolve_prop Hprops CSelectMenu "confirm" confirm cp Hconfirm.
  resolve_prop Hprops CSelectMenu "placeholder" ph pp Hph.
  unfold SelectMenu_toSlackElement. cbv zeta.
  rewrite Hconfirm, Hph, Hsec, Hio. cbn [bind fieldsOf fst snd].
  rewrite Htype.
  change (strictEq (VStr "external") "static") with false.
  change (strictEq (VStr "external") "external") with true.
  change (strictEq (VStr "external") "users") with false.
  change (strictEq (VStr "external") "channels") with false.
  change (strictEq (VStr "external") "conversations") with false.
  cbv iota. cbn [bind]. rewrite coerceIfPresent_set. cbn [bind].
  eexists. eexists. split; [reflexivity|]. split.
  - rewrite !get_set_other by discriminate. apply get_set_same.
  - rewrite !get_set_other by discriminate. apply get_set_same.
Qed.

(** The lemma at an external menu whose initial option is a. *)
Lemma SelectMenu_external_example :
  exists instance promises',
    SelectMenu_toSlackElement exExternalSingleProps (reconcile 4) []
    = Ok (instance, promises')
    /\ get instance "initial_option" = initialOption "a" true
    /\ get instance "min_query_length" = VNum 3.
Proof.
  assert (Hprops : propsResolve (reconcile 4) CSelectMenu
                     exExternalSingleProps) by (repeat constructor).
  exact (SelectMenu_external_initial_option (reconcile 4)
           exExternalSingleProps []
           [("type", VStr "section"); ("text", VUndef);
            ("accessory", VUndef)] []
           (resolvedOption "a" true) [] eq_refl Hprops eq_refl eq_refl).
Qed.

(** C5, the multi-select half. MultiSelectMenu never reads its
    [initialOptions] prop: whatever the prop holds, the result is the same.
    What it stores as [initial_options] of an external menu is a second
    resolution of its children, so the menu of [exExternalProps], given one
    initial option and no children, comes out with [initial_options]
    undefined. *)
Theorem MultiSelectMenu_external_ignores_initialOptions :
  (forall (reconcile : resolver) (props : obj) (promises : list promise)
          (v : value),
      MultiSelectMenu_toSlackElement (set "initialOptions" v props)
        reconcile promises
      = MultiSelectMenu_toSlackElement props reconcile promises)
  /\ get exExternalProps "initialOptions" = VArr [exOption "a" true]
  /\ exists instance,
       MultiSelectMenu_toSlackElement exExternalProps (reconcile 4) []
       = Ok (instance, [])
       /\ get instance "type" = VStr "multi_external_select"
       /\ get instance "initial_options" = VUndef.
Proof.
  split; [|split; [reflexivity|]].
  - intros reconcile props promises v.
    unfold MultiSelectMenu_toSlackElement, sectionOf, copyFilter.
    now rewrite !get_set_other by discriminate.
  - eexists. split; [reflexivity|]. split; reflexivity.
Qed.

(** ** Missing props and unknown variants *)

Lemma strictEq_undeclared (tag s : string) :
  ~ In tag declaredVariants -> In s declaredVariants ->
  strictEq (VStr tag) s = false.
Proof.
  intros Hout Hin. simpl. apply String.eqb_neq. intros ->. auto.
Qed.

(** C8, as stated, fails: a Button without [action] and a SelectMenu of an
    undeclared variant are converted, not rejected. *)
Lemma missing_props_are_not_rejected :
  has exButtonProps "action" = false
  /\ Button_toSlackElement exButtonProps (reconcile 3) []
     = Ok (exBareButton, [])
  /\ get exUnknownMenuProps "type" = VStr "bogus"
  /\ exists instance,
       SelectMenu_toSlackElement exUnknownMenuProps (reconcile 3) []
       = Ok (instance, [])
       /\ get instance "type" = VStr "bogus_select".
Proof.
  repeat split; try reflexivity.
  eexists. split; reflexivity.
Qed.

(** ** Fields that a step leaves alone *)

Lemma get_assignPlainText_other (k k' : string) (i i' : obj) :
  assignPlainText k i = Ok i' -> k <> k' -> get i' k' = get i k'.
Proof.
  unfold assignPlainText. destruct (get i k); try discriminate.
  intros H Hne. inversion H; subst. now apply get_set_other.
Qed.

Lemma get_coerceIfPresent_other (k k' : string) (i i' : obj) :
  coerceIfPresent k i = Ok i' -> k <> k' -> get i' k' = get i k'.
Proof.
  unfold coerceIfPresent. destruct (truthy (get i k)).
  - apply get_assignPlainText_other.
  - intros H _. now inversion H; subst.
Qed.

Lemma get_copyFilter_other (props : obj) (k' : string) (i i' : obj) :
  copyFilter props i = Ok i' -> "filter" <> k' -> get i' k' = get i k'.
Proof.
  unfold copyFilter. destruct (truthy (get props "filter")).
  - intros H Hne. repeat inv_bind H. inversion H; subst.
    now apply get_set_other.
  - intros H _. now inversion H; subst.
Qed.


(** Follow one field back through the steps that do not touch it. *)
Ltac untouched :=
  repeat first
    [ rewrite get_set_other by discriminate
    | rewrite get_if_set by discriminate
    | match goal with
      | H : coerceIfPresent _ _ = Ok ?i |- context [get ?i ?k] =>
          rewrite (get_coerceIfPresent_other _ k _ _ H) by discriminate
      | H : assignPlainText _ _ = Ok ?i |- context [get ?i ?k] =>
          rewrite (get_assignPlainText_other _ k _ _ H) by discriminate
      | H : copyFilter _ _ = Ok ?i |- context [get ?i ?k] =>
          rewrite (get_copyFilter_other _ k _ _ H) by discriminate
      | |- context [if ?b then _ else _] => destruct b
      | |- context [match ?o with Some _ => _ | None => _ end] => destruct o
      end ];
  try reflexivity.

(** ** Pending resolutions *)

Lemma fieldsOf_promises (r : resolved) (v : value) (ps : list promise) :
  fieldsOf r = Ok (v, ps) -> ps = snd r.
Proof.
  unfold fieldsOf. destruct (fst r); [|discriminate].
  intros H. now inversion H.
Qed.

(** Take the resolutions of a successful run apart, without looking into
    what the rule made of them. *)
Ltac resolutions_of H :=
  repeat inv_bind H;
  try apply spelled_Ok in H;
  inversion H; clear H; subst;
  repeat match goal with
    | H' : bind _ _ = Ok _ |- _ => inv_bind H'
    | H' : fieldsOf _ = Ok _ |- _ =>
        apply fieldsOf_promises in H'; subst
    end.

(** Run both sides of an equation between two runs of a rule step by
    step. *)
Ltac run_both :=
  repeat first
    [ match goal with
      | |- context [match ?x with pair _ _ => _ end] => is_var x; destruct x
      end
    | match goal with
      | |- context [bind ?r _] =>
          lazymatch r with
          | bind _ _ => fail
          | Ok _ => fail
          | Throw _ => fail
          | spelled _ _ => fail
          | match _ with pair _ _ => _ end => fail
          | _ => destruct r
          end
      end; cbn [bind] ].

Ltac unfold_rules :=
  unfold plain, Button_toSlackElement, Section_toSlackElement,
    Confirm_toSlackElement, Option_toSlackElement,
    DatePicker_toSlackElement, Modal_toSlackElement,
    Input_toSlackElement, TextField_toSlackElement,
    Checkboxes_toSlackElement, OverflowMenu_toSlackElement,
    RadioButtons_toSlackElement, OptionGroup_toSlackElement,
    SelectMenu_toSlackElement, MultiSelectMenu_toSlackElement,
    Home_toSlackElement.

Ltac unfold_rules_in H :=
  unfold plain, Button_toSlackElement, Section_toSlackElement,
    Confirm_toSlackElement, Option_toSlackElement,
    DatePicker_toSlackElement, Modal_toSlackElement,
    Input_toSlackElement, TextField_toSlackElement,
    Checkboxes_toSlackElement, OverflowMenu_toSlackElement,
    RadioButtons_toSlackElement, OptionGroup_toSlackElement,
    SelectMenu_toSlackElement, MultiSelectMenu_toSlackElement,
    Home_toSlackElement in H.

Lemma rule_frames_promises
    (c : component) (reconcile : resolver) (props : obj)
    (promises : list promise) :
  toSlackElement c props reconcile promises
  = ('(instance, ps) <- toSlackElement c props reconcile [] ;;
     Ok (instance, promises ++ ps)).
Proof.
  destruct c; simpl toSlackElement; unfold_rules; cbv zeta.
  all: run_both.
  all: try reflexivity.
  all: try (cbn [bind app]; rewrite ?app_nil_r; reflexivity).
  all: unfold spelled; destruct (toString _); cbn [bind app];
       rewrite ?app_nil_r; reflexivity.
Qed.

Lemma rule_pushes_resolutions
    (c : component) (reconcile : resolver) (props : obj)
    (instance : obj) (ps : list promise) :
  toSlackElement c props reconcile [] = Ok (instance, ps) ->
  ps = pushed reconcile c props.
Proof.
  intros Hrun. unfold pushed.
  destruct c; simpl in Hrun; unfold_rules_in Hrun; cbv zeta in Hrun.
  all: resolutions_of Hrun.
  all: repeat match goal with
       | H1 : ?f ?e = Ok ?a, H2 : ?f ?e = Ok ?b |- _ =>
           rewrite H1 in H2; inversion H2; clear H2; subst
       end.
  all: simpl.
  all: repeat match goal with
       | H : ?f ?e = Ok _ |- context [promisesOf (?f ?e)] => rewrite H
       end.
  all: simpl; rewrite ?app_nil_r; reflexivity.
Qed.

(** X1. A rule only ever appends to [promises]: what it returns is the array
    it was given followed by the promises of its resolutions, in the order
    of [resolutions]; the element does not depend on the array.
    MultiSelectMenu resolves its children twice and so records their
    promises twice. *)
Theorem promises_are_appended_in_order
    (c : component) (reconcile : resolver) (props : obj)
    (promises promises' : list promise) (instance : obj) :
  toSlackElement c props reconcile promises = Ok (instance, promises') ->
  promises' = promises ++ pushed reconcile c props
  /\ forall other,
       toSlackElement c props reconcile other
       = Ok (instance, other ++ pushed reconcile c props).
Proof.
  intros Hrun. rewrite rule_frames_promises in Hrun.
  destruct (toSlackElement c props reconcile []) as [[i ps]|e] eqn:E;
    [|discriminate].
  cbn [bind] in Hrun. inversion Hrun; subst.
  rewrite (rule_pushes_resolutions _ _ _ _ _ E). split; [reflexivity|].
  intros other. rewrite rule_frames_promises, E. cbn [bind].
  now rewrite (rule_pushes_resolutions _ _ _ _ _ E).
Qed.

(** The theorem at a static MultiSelectMenu whose placeholder and children
    come back with pending work. *)
Lemma promises_are_appended_in_order_witness :
  exists instance,
    toSlackElement CMultiSelectMenu exMenuProps exPendingResolver [Pending 9]
    = Ok (instance, [Pending 9; Pending 4; Pending 0; Pending 0])
    /\ toSlackElement CMultiSelectMenu exMenuProps exPendingResolver []
       = Ok (instance, [Pending 4; Pending 0; Pending 0]).
Proof.
  eexists.
  assert (H : toSlackElement CMultiSelectMenu exMenuProps exPendingResolver
                [Pending 9]
              = Ok (_, [Pending 9; Pending 4; Pending 0; Pending 0]))
    by reflexivity.
  split; [exact H|].
  exact (proj2 (promises_are_appended_in_order CMultiSelectMenu
                  exPendingResolver exMenuProps [Pending 9] _ _ H) []).
Defined.

(** ** Failures *)

(** X2. No rule recovers from a failed resolution.  When the resolution of a
    nested prop throws, and no other nested prop throws anything else, the
    rule throws the same error. *)
Theorem nested_failure_aborts
    (c : component) (reconcile : resolver) (props : obj)
    (promises : list promise) (k : string) (e : error) :
  In k (nestedProps c) ->
  reconcile (get props k) = Throw e ->
  (forall k' e', In k' (nestedProps c) ->
                 reconcile (get props k') = Throw e' -> e' = e) ->
  (collectsOptions c = true ->
   exists section sp, reconcile (sectionOf props) = Ok (Some section, sp)) ->
  toSlackElement c props reconcile promises = Throw e.
Proof.
  intros Hin Hk Hothers Hsec.
  destruct c; simpl in Hin; try contradiction; simpl toSlackElement;
    unfold_rules; cbv zeta;
    try (destruct (Hsec eq_refl) as (section & sp & Es); rewrite ?Es);
    cbn [bind fieldsOf fst snd].
  all: repeat match goal with
       | |- context [bind (?f (get ?p ?k')) _] =>
           let E := fresh "E" in
           destruct (f (get p k')) as [[? ?]|?] eqn:E;
           [ cbn [bind fieldsOf fst snd]
           | cbn [bind];
             rewrite (Hothers k' _ ltac:(simpl; tauto) E); reflexivity ]
       end.
  all: exfalso; repeat (destruct Hin as [<-|Hin]; [congruence|]);
       contradiction.
Qed.

(** The theorem at a Button whose Confirm fails to resolve. *)
Lemma nested_failure_aborts_witness :
  toSlackElement CButton exConfirmingButtonProps exFailingResolver []
  = Throw Misplaced.
Proof.
  assert (H : forall k' e',
             In k' (nestedProps CButton) ->
             exFailingResolver (get exConfirmingButtonProps k') = Throw e' ->
             e' = Misplaced).
  { intros k' e' [<-|[]] E. now inversion E. }
  assert (Hs : collectsOptions CButton = true ->
               exists section sp,
                 exFailingResolver (sectionOf exConfirmingButtonProps)
                 = Ok (Some section, sp))
    by (intros D; discriminate D).
  exact (nested_failure_aborts CButton exFailingResolver
           exConfirmingButtonProps [] "confirm" Misplaced
           (or_introl eq_refl) eq_refl H Hs).
Defined.

(** X3. The four rules that look for selected options take the [fields] of
    what their children resolved to, so they throw when that resolution
    comes back [undefined]; a menu of a variant without children is no
    exception. *)
Theorem lost_children_throw
    (c : component) (reconcile : resolver) (props : obj)
    (promises sp : list promise) :
  collectsOptions c = true ->
  propsResolve reconcile c props ->
  reconcile (sectionOf props) = Ok (None, sp) ->
  toSlackElement c props reconcile promises = Throw TypeError.
Proof.
  intros Hc Hprops Hsec.
  destruct c; try discriminate Hc; simpl toSlackElement; unfold_rules;
    cbv zeta.
  - unfold Checkboxes_toSlackElement. now rewrite Hsec.
  - unfold RadioButtons_toSlackElement. now rewrite Hsec.
  - resolve_prop Hprops CSelectMenu "confirm" confirm cp Hconfirm.
    resolve_prop Hprops CSelectMenu "placeholder" ph pp Hph.
    now rewrite Hconfirm, Hph, Hsec.
  - resolve_prop Hprops CMultiSelectMenu "confirm" confirm cp Hconfirm.
    resolve_prop Hprops CMultiSelectMenu "placeholder" ph pp Hph.
    now rewrite Hconfirm, Hph, Hsec.
Qed.

(** The theorem at a users menu and a resolver that loses elements. *)
Lemma lost_children_throw_witness :
  toSlackElement CSelectMenu exUsersMenuProps exLosingResolver []
  = Throw TypeError.
Proof.
  assert (Hprops : propsResolve exLosingResolver CSelectMenu
                     exUsersMenuProps) by (repeat constructor).
  exact (lost_children_throw CSelectMenu exLosingResolver exUsersMenuProps
           [] [] eq_refl Hprops eq_refl).
Defined.

(** ** Selection, further *)

Lemma has_set_same (k : string) (v : value) (o : obj) :
  has (set k v o) k = true.
Proof.
  induction o as [|[a b] o IH]; simpl.
  - now rewrite String.eqb_refl.
  - destruct (String.eqb a k) eqn:E; simpl.
    + now rewrite String.eqb_refl.
    + now rewrite E.
Qed.

Lemma has_set_other (k k' : string) (v : value) (o : obj) :
  k <> k' -> has (set k v o) k' = has o k'.
Proof.
  intros Hne. apply String.eqb_neq in Hne.
  induction o as [|[a b] o IH]; simpl.
  - now rewrite Hne.
  - destruct (String.eqb a k) eqn:E; simpl.
    + apply String.eqb_eq in E. subst a. now rewrite Hne.
    + destruct (String.eqb a k'); auto.
Qed.

Lemma filterM_answered (options : list value) :
  Forall (fun v => isOk (isSelected v) = true) options ->
  filterM isSelected options = Ok (filter selected options).
Proof.
  induction 1 as [|v options Hv _ IH]; simpl; [reflexivity|].
  apply isOk_true in Hv. destruct Hv as [b Hb].
  rewrite Hb, IH. simpl. unfold selected. rewrite Hb. reflexivity.
Qed.

Lemma findM_none_selected (options : list value) :
  Forall (fun v => isSelected v = Ok false) options ->
  findM isSelected (map withoutUrl options) = Ok None.
Proof.
  induction 1 as [|v options Hv _ IH]; simpl; [reflexivity|].
  now rewrite (isSelected_withoutUrl _ _ Hv).
Qed.

Lemma isSelected_throws_TypeError (v : value) (e : error) :
  isSelected v = Throw e -> e = TypeError.
Proof.
  unfold isSelected, callMethod.
  destruct (getProp v "isSelected") as [f|e'] eqn:E; simpl.
  - destruct f; simpl; intros H; inversion H; reflexivity.
  - destruct v; simpl in E; inversion E; intros H; now inversion H.
Qed.

Lemma filterM_throws (options : list value) (v : value) :
  In v options -> isOk (isSelected v) = false ->
  filterM isSelected options = Throw TypeError.
Proof.
  induction options as [|x options IH]; simpl; [contradiction|].
  intros Hin Hv.
  destruct (isSelected x) as [b|e] eqn:E; simpl.
  - destruct Hin as [->|Hin]; [rewrite E in Hv; discriminate|].
    now rewrite (IH Hin Hv).
  - now rewrite (isSelected_throws_TypeError _ _ E).
Qed.

(** X4. Checkboxes: [initial_options] holds the selected children, in their
    order and with [url] cleared; when none is selected it is [undefined],
    not an empty array. *)
Theorem Checkboxes_initial_options
    (reconcile : resolver) (props : obj) (promises : list promise)
    (section : obj) (sp : list promise) (options : list value) :
  propsResolve reconcile CCheckboxes props ->
  reconcile (sectionOf props) = Ok (Some section, sp) ->
  get section "fields" = VArr options ->
  Forall (fun v => isOk (isSelected v) = true) options ->
  exists instance promises',
    Checkboxes_toSlackElement props reconcile promises
    = Ok (instance, promises')
    /\ get instance "initial_options"
       = match filter selected options with
         | [] => VUndef
         | chosen => VArr (map withoutUrl chosen)
         end.
Proof.
  intros Hprops Hsec Hfields Hoptions.
  resolve_prop Hprops CCheckboxes "confirm" confirm cp Hconfirm.
  unfold Checkboxes_toSlackElement.
  rewrite Hsec. cbn [bind fieldsOf fst snd]. rewrite Hfields, Hconfirm.
  cbn [bind]. rewrite (filterM_answered _ Hoptions). cbn [bind].
  eexists. eexists. split; [reflexivity|].
  rewrite get_set_other by discriminate. rewrite get_set_same.
  destruct (filter selected options); reflexivity.
Qed.

(** The theorem at options a, b, c with b and c selected, and with none
    selected. *)
Lemma Checkboxes_initial_options_witness :
  (exists instance promises',
     Checkboxes_toSlackElement exFlatProps (reconcile 4) []
     = Ok (instance, promises')
     /\ get instance "initial_options"
        = VArr [initialOption "b" true; initialOption "c" true])
  /\ (exists instance promises',
        Checkboxes_toSlackElement exUnselectedProps (reconcile 4) []
        = Ok (instance, promises')
        /\ get instance "initial_options" = VUndef).
Proof.
  split.
  - assert (Hprops : propsResolve (reconcile 4) CCheckboxes exFlatProps)
      by (repeat constructor).
    assert (Ho : Forall (fun v => isOk (isSelected v) = true) exOptions)
      by (repeat constructor).
    exact (Checkboxes_initial_options (reconcile 4) exFlatProps []
             (sectionWith exOptions) [] exOptions Hprops eq_refl eq_refl Ho).
  - assert (Hprops : propsResolve (reconcile 4) CCheckboxes
                       exUnselectedProps) by (repeat constructor).
    assert (Ho : Forall (fun v => isOk (isSelected v) = true) exUnselected)
      by (repeat constructor).
    exact (Checkboxes_initial_options (reconcile 4) exUnselectedProps []
             (sectionWith exUnselected) [] exUnselected Hprops eq_refl
             eq_refl Ho).
Defined.

(** X5. Checkboxes puts the question to every child: one that does not answer
    [isSelected()], wherever it stands, makes the conversion throw. *)
Theorem Checkboxes_examines_every_child
    (reconcile : resolver) (props : obj) (promises : list promise)
    (section : obj) (sp : list promise) (options : list value)
    (v : value) :
  propsResolve reconcile CCheckboxes props ->
  reconcile (sectionOf props) = Ok (Some section, sp) ->
  get section "fields" = VArr options ->
  In v options ->
  isOk (isSelected v) = false ->
  Checkboxes_toSlackElement props reconcile promises = Throw TypeError.
Proof.
  intros Hprops Hsec Hfields Hin Hv.
  resolve_prop Hprops CCheckboxes "confirm" confirm cp Hconfirm.
  unfold Checkboxes_toSlackElement.
  rewrite Hsec. cbn [bind fieldsOf fst snd]. rewrite Hfields, Hconfirm.
  cbn [bind]. now rewrite (filterM_throws _ _ Hin Hv).
Qed.

(** X6. RadioButtons and a static SelectMenu with options none of which is
    selected: [initial_option] is set, to [undefined]. *)
Theorem nothing_selected
    (c : component) (reconcile : resolver) (props : obj)
    (promises : list promise) (section : obj) (sp : list promise)
    (children options : list value) :
  (c = CRadioButtons /\ options = children)
  \/ (c = CSelectMenu /\ get props "type" = VStr "static"
      /\ flattenGroups children = Ok options) ->
  propsResolve reconcile c props ->
  reconcile (sectionOf props) = Ok (Some section, sp) ->
  get section "fields" = VArr children ->
  Forall (fun v => isSelected v = Ok false) options ->
  exists instance promises',
    toSlackElement c props reconcile promises = Ok (instance, promises')
    /\ get instance "initial_option" = VUndef
    /\ has instance "initial_option" = true.
Proof.
  intros Hc Hprops Hsec Hfields Hnone.
  pose proof (findM_none_selected _ Hnone) as Hfind.
  destruct Hc as [[-> ->] | (-> & Htype & Hflat)]; simpl toSlackElement.
  - resolve_prop Hprops CRadioButtons "confirm" confirm cp Hconfirm.
    unfold RadioButtons_toSlackElement.
    rewrite Hsec. cbn [bind fieldsOf fst snd]. rewrite Hfields, Hconfirm.
    cbn [bind]. rewrite Hfind. cbn [bind orUndefined].
    eexists. eexists. split; [reflexivity|]. split.
    + rewrite get_set_other by discriminate. apply get_set_same.
    + rewrite has_set_other by discriminate. apply has_set_same.
  - resolve_prop Hprops CSelectMenu "confirm" confirm cp Hconfirm.
    resolve_prop Hprops CSelectMenu "placeholder" ph pp Hph.
    resolve_prop Hprops CSelectMenu "initialOption" io ip Hio.
    pose proof (flattenGroups_nonempty _ _ Hflat) as Hne.
    destruct children as [|child children]; [contradiction|].
    unfold SelectMenu_toSlackElement. cbv zeta.
    rewrite Hconfirm, Hph, Hsec, Hio. cbn [bind fieldsOf fst snd].
    rewrite Hfields, Htype.
    change (strictEq (VStr "static") "static") with true.
    change (strictEq (VStr "static") "external") with false.
    change (strictEq (VStr "static") "users") with false.
    change (strictEq (VStr "static") "channels") with false.
    change (strictEq (VStr "static") "conversations") with false.
    cbv iota. rewrite Hflat. cbn [bind]. rewrite Hfind. cbn [bind orUndefined].
    rewrite coerceIfPresent_set. cbn [bind].
    eexists. eexists. split; [reflexivity|]. split.
    + rewrite !get_set_other by discriminate. apply get_set_same.
    + rewrite !has_set_other by discriminate. apply has_set_same.
Qed.

(** The theorem at Checkboxes whose second child is a button. *)
Lemma Checkboxes_examines_every_child_witness :
  Checkboxes_toSlackElement exStrayProps (reconcile 4) [] = Throw TypeError.
Proof.
  assert (Hprops : propsResolve (reconcile 4) CCheckboxes exStrayProps)
    by (repeat constructor).
  assert (Hin : In (VObj resolvedGoButton)
                  [VObj (resolvedOption "a" true); VObj resolvedGoButton])
    by (simpl; auto).
  exact (Checkboxes_examines_every_child (reconcile 4) exStrayProps []
           (sectionWith [VObj (resolvedOption "a" true);
                         VObj resolvedGoButton]) []
           _ (VObj resolvedGoButton) Hprops eq_refl eq_refl Hin eq_refl).
Defined.

(** The theorem at RadioButtons with options a, b, c, none selected. *)
Lemma nothing_selected_witness :
  exists instance promises',
    toSlackElement CRadioButtons exUnselectedProps (reconcile 4) []
    = Ok (instance, promises')
    /\ get instance "initial_option" = VUndef
    /\ has instance "initial_option" = true.
Proof.
  assert (Hprops : propsResolve (reconcile 4) CRadioButtons
                     exUnselectedProps) by (repeat constructor).
  assert (Hnone : Forall (fun v => isSelected v = Ok false) exUnselected)
    by (repeat constructor).
  exact (nothing_selected CRadioButtons (reconcile 4) exUnselectedProps []
           (sectionWith exUnselected) [] exUnselected exUnselected
           (or_introl (conj eq_refl eq_refl)) Hprops eq_refl eq_refl Hnone).
Defined.

(** X7. Checkboxes and RadioButtons whose children resolved to no array of
    fields leave the initial selection out altogether. *)
Theorem no_children_no_selection
    (c : component) (reconcile : resolver) (props : obj)
    (promises : list promise) (section : obj) (sp : list promise) :
  c = CCheckboxes \/ c = CRadioButtons ->
  propsResolve reconcile c props ->
  reconcile (sectionOf props) = Ok (Some section, sp) ->
  (forall fields, get section "fields" <> VArr fields) ->
  exists instance promises',
    toSlackElement c props reconcile promises = Ok (instance, promises')
    /\ keys instance = ["type"; "action_id"; "options"; "confirm"].
Proof.
  intros Hc Hprops Hsec Hfields.
  destruct Hc as [-> | ->]; simpl toSlackElement.
  - resolve_prop Hprops CCheckboxes "confirm" confirm cp Hconfirm.
    unfold Checkboxes_toSlackElement.
    rewrite Hsec. cbn [bind fieldsOf fst snd]. rewrite Hconfirm.
    destruct (get section "fields") eqn:E;
      try (exfalso; eapply Hfields; reflexivity);
      cbn [bind]; eexists; eexists; split; reflexivity.
  - resolve_prop Hprops CRadioButtons "confirm" confirm cp Hconfirm.
    unfold RadioButtons_toSlackElement.
    rewrite Hsec. cbn [bind fieldsOf fst snd]. rewrite Hconfirm.
    destruct (get section "fields") eqn:E;
      try (exfalso; eapply Hfields; reflexivity);
      cbn [bind]; eexists; eexists; split; reflexivity.
Qed.

(** The theorem at [<RadioButtons action="pick" />]. *)
Lemma no_children_no_selection_witness :
  exists instance promises',
    toSlackElement CRadioButtons exChildlessProps (reconcile 4) []
    = Ok (instance, promises')
    /\ keys instance = ["type"; "action_id"; "options"; "confirm"].
Proof.
  assert (Hprops : propsResolve (reconcile 4) CRadioButtons
                     exChildlessProps) by (repeat constructor).
  assert (Hf : forall fields,
             get [("type", VStr "section"); ("text", VUndef);
                  ("accessory", VUndef)] "fields" <> VArr fields)
    by (intros fields H; discriminate H).
  exact (no_children_no_selection CRadioButtons (reconcile 4)
           exChildlessProps [] _ [] (or_intror eq_refl) Hprops eq_refl Hf).
Defined.

(** ** Flattening, further *)

Lemma ownOptions_throws_TypeError (v : value) (e : error) :
  ownOptions v = Throw e -> e = TypeError.
Proof.
  unfold ownOptions.
  destruct (getProp v "options") as [o|e'] eqn:E; simpl.
  - destruct o; simpl; intros H; inversion H; reflexivity.
  - destruct v; simpl in E; inversion E; intros H; now inversion H.
Qed.

Lemma pushGroupOptions_throws (groups acc : list value) (v : value) :
  In v groups -> isOk (ownOptions v) = false ->
  pushGroupOptions acc groups = Throw TypeError.
Proof.
  revert acc. induction groups as [|g groups IH]; simpl; [contradiction|].
  intros acc Hin Hv.
  destruct (ownOptions g) as [items|e] eqn:E.
  - destruct Hin as [->|Hin]; [rewrite E in Hv; discriminate|].
    unfold ownOptions in E.
    destruct (getProp g "options") as [o|e]; cbn [bind] in *;
      [|discriminate].
    rewrite E. cbn [bind]. now apply IH.
  - apply ownOptions_throws_TypeError in E as He. subst e.
    unfold ownOptions in E.
    destruct (getProp g "options") as [o|e]; cbn [bind] in *.
    + now rewrite E.
    + exact E.
Qed.

(** X8. Once the first child of a static menu is a group, every child is
    spread as one: a child without options to spread, such as a bare
    option after the groups, makes the conversion throw. *)
Theorem grouped_menu_needs_groups_throughout
    (c : component) (reconcile : resolver) (props : obj)
    (promises : list promise) (section : obj) (sp : list promise)
    (g : obj) (rest : list value) (v : value) :
  c = CSelectMenu \/ c = CMultiSelectMenu ->
  get props "type" = VStr "static" ->
  propsResolve reconcile CSelectMenu props ->
  reconcile (sectionOf props) = Ok (Some section, sp) ->
  get section "fields" = VArr (VObj g :: rest) ->
  isGroup g = true ->
  In v (VObj g :: rest) ->
  isOk (ownOptions v) = false ->
  toSlackElement c props reconcile promises = Throw TypeError.
Proof.
  intros Hc Htype Hprops Hsec Hfields Hg Hin Hv.
  resolve_prop Hprops CSelectMenu "confirm" confirm cp Hconfirm.
  resolve_prop Hprops CSelectMenu "placeholder" ph pp Hph.
  resolve_prop Hprops CSelectMenu "initialOption" io ip Hio.
  assert (Hflat : flattenGroups (VObj g :: rest) = Throw TypeError).
  { unfold flattenGroups. cbn [nth getProp bind].
    unfold isGroup in Hg. rewrite Hg.
    now apply pushGroupOptions_throws with (v := v). }
  destruct Hc as [-> | ->]; simpl toSlackElement;
    unfold SelectMenu_toSlackElement, MultiSelectMenu_toSlackElement;
    cbv zeta; rewrite Hconfirm, Hph, Hsec, ?Hio;
    cbn [bind fieldsOf fst snd]; rewrite Hfields, Htype;
    change (strictEq (VStr "static") "static") with true;
    cbv iota; rewrite Hflat; reflexivity.
Qed.

(** The theorem at a static SelectMenu with a group and then an option. *)
Lemma grouped_menu_needs_groups_throughout_witness :
  toSlackElement CSelectMenu exMixedProps (reconcile 4) [] = Throw TypeError.
Proof.
  assert (Hprops : propsResolve (reconcile 4) CSelectMenu exMixedProps)
    by (repeat constructor).
  assert (Hin : In (VObj (resolvedOption "b" true))
                  [VObj (resolvedGroup "first"
                           [VObj (resolvedOption "a" false)]);
                   VObj (resolvedOption "b" true)])
    by (simpl; auto).
  exact (grouped_menu_needs_groups_throughout CSelectMenu (reconcile 4)
           exMixedProps []
           (sectionWith [VObj (resolvedGroup "first"
                                 [VObj (resolvedOption "a" false)]);
                         VObj (resolvedOption "b" true)]) []
           _ _ (VObj (resolvedOption "b" true))
           (or_introl eq_refl) eq_refl Hprops eq_refl eq_refl eq_refl Hin
           eq_refl).
Defined.

(** ** Variants *)

(** X9. A users or channels menu copies its initial selection from the prop
    and carries nothing else beyond its common fields: no option of its
    children and no [initialOption] finds its way in, and a [filter] prop
    is ignored. *)
Theorem identifier_menus_copy_their_selection
    (c : component) (tag prop wire : string) (reconcile : resolver)
    (props : obj) (promises : list promise) (section : obj)
    (sp : list promise) :
  In (c, tag, prop, wire) copiedSelections ->
  tag <> "conversations" ->
  get props "type" = VStr tag ->
  propsResolve reconcile CSelectMenu props ->
  reconcile (sectionOf props) = Ok (Some section, sp) ->
  exists instance promises',
    toSlackElement c props reconcile promises = Ok (instance, promises')
    /\ get instance wire = get props prop
    /\ keys instance
       = match c with
         | CMultiSelectMenu =>
             ["type"; "action_id"; "max_selected_items"; "onSearchOptions";
              wire; "confirm"; "placeholder"]
         | _ =>
             ["type"; "action_id"; "onSearchOptions"; wire; "confirm";
              "placeholder"]
         end.
Proof.
  intros Hin Hnot Htype Hprops Hsec.
  resolve_prop Hprops CSelectMenu "confirm" confirm cp Hconfirm.
  resolve_prop Hprops CSelectMenu "placeholder" ph pp Hph.
  resolve_prop Hprops CSelectMenu "initialOption" io ip Hio.
  simpl in Hin.
  repeat (destruct Hin as [Hin|Hin];
          [inversion Hin; subst; clear Hin|]); try contradiction;
    try (exfalso; apply Hnot; reflexivity);
    simpl toSlackElement;
    unfold SelectMenu_toSlackElement, MultiSelectMenu_toSlackElement;
    cbv zeta; rewrite Hconfirm, Hph, Hsec, ?Hio;
    cbn [bind fieldsOf fst snd]; rewrite Htype;
    cbn [strictEq String.eqb Ascii.eqb Bool.eqb bind];
    rewrite coerceIfPresent_set; cbn [bind];
    eexists; eexists; (split; [reflexivity|]); (split; [|reflexivity]);
    rewrite !get_set_other by discriminate; apply get_set_same.
Qed.

(** The theorem at a users menu. *)
Lemma identifier_menus_copy_their_selection_witness :
  exists instance promises',
    toSlackElement CSelectMenu exUsersMenuProps (reconcile 3) []
    = Ok (instance, promises')
    /\ get instance "initial_user" = VStr "U123"
    /\ keys instance
       = ["type"; "action_id"; "onSearchOptions"; "initial_user"; "confirm";
          "placeholder"].
Proof.
  assert (Hin : In (CSelectMenu, "users", "initialUser", "initial_user")
                  copiedSelections) by (simpl; auto).
  assert (Hnot : "users" <> "conversations") by discriminate.
  assert (Hprops : propsResolve (reconcile 3) CSelectMenu exUsersMenuProps)
    by (repeat constructor).
  exact (identifier_menus_copy_their_selection CSelectMenu "users"
           "initialUser" "initial_user" (reconcile 3) exUsersMenuProps []
           [("type", VStr "section"); ("text", VUndef);
            ("accessory", VUndef)] []
           Hin Hnot eq_refl Hprops eq_refl).
Defined.

(** X10. A conversations menu copies its initial selection and, when it has a
    [filter], emits it under the wire names of its three parts; without a
    [filter] prop it emits none. *)
Theorem conversations_filter_is_renamed
    (c : component) (prop wire : string) (reconcile : resolver)
    (props : obj) (promises : list promise) (section : obj)
    (sp : list promise) (filter : option obj) :
  In (c, "conversations", prop, wire) copiedSelections ->
  get props "type" = VStr "conversations" ->
  get props "filter" = ofResolved filter ->
  propsResolve reconcile CSelectMenu props ->
  reconcile (sectionOf props) = Ok (Some section, sp) ->
  exists instance promises',
    toSlackElement c props reconcile promises = Ok (instance, promises')
    /\ get instance wire = get props prop
    /\ get instance "filter" = ofResolved (option_map wireFilter filter)
    /\ has instance "filter" = match filter with
                               | Some _ => true
                               | None => false
                               end.
Proof.
  intros Hin Htype Hfilter Hprops Hsec.
  resolve_prop Hprops CSelectMenu "confirm" confirm cp Hconfirm.
  resolve_prop Hprops CSelectMenu "placeholder" ph pp Hph.
  resolve_prop Hprops CSelectMenu "initialOption" io ip Hio.
  simpl in Hin.
  repeat (destruct Hin as [Hin|Hin];
          [inversion Hin; subst; clear Hin|]); try contradiction;
    simpl toSlackElement;
    unfold SelectMenu_toSlackElement, MultiSelectMenu_toSlackElement;
    cbv zeta; rewrite Hconfirm, Hph, Hsec, ?Hio;
    cbn [bind fieldsOf fst snd]; rewrite Htype;
    cbn [strictEq String.eqb Ascii.eqb Bool.eqb bind];
    unfold copyFilter; rewrite Hfilter;
    destruct filter as [f|]; cbn [ofResolved truthy getProp bind option_map];
    rewrite coerceIfPresent_set; cbn [bind];
    eexists; eexists; (split; [reflexivity|]);
    repeat split;
    rewrite ?get_set_other, ?has_set_other by discriminate;
    rewrite ?get_set_same, ?has_set_same; reflexivity.
Qed.

(** The theorem at a conversations multi-select menu with a filter. *)
Lemma conversations_filter_is_renamed_witness :
  exists instance promises',
    toSlackElement CMultiSelectMenu exConversationsProps (reconcile 3) []
    = Ok (instance, promises')
    /\ get instance "initial_conversations" = VArr [VStr "C1"; VStr "C2"]
    /\ get instance "filter"
       = VObj [("include", VArr [VStr "im"; VStr "public"]);
               ("exclude_external_shared_channels", VUndef);
               ("exclude_bot_users", VBool true)]
    /\ has instance "filter" = true.
Proof.
  assert (Hin : In (CMultiSelectMenu, "conversations",
                    "initialConversations", "initial_conversations")
                  copiedSelections) by (simpl; tauto).
  assert (Hprops : propsResolve (reconcile 3) CSelectMenu
                     exConversationsProps) by (repeat constructor).
  exact (conversations_filter_is_renamed CMultiSelectMenu
           "initialConversations" "initial_conversations" (reconcile 3)
           exConversationsProps []
           [("type", VStr "section"); ("text", VUndef);
            ("accessory", VUndef)] []
           (Some [("include", VArr [VStr "im"; VStr "public"]);
                  ("excludeBotUsers", VBool true)])
           Hin eq_refl eq_refl Hprops eq_refl).
Defined.

(** X11. An external SelectMenu whose [initialOption] resolves to nothing has
    no [initial_option], whatever its children hold; [min_query_length] is
    set all the same. *)
Theorem external_menu_without_initial_option
    (reconcile : resolver) (props : obj) (promises : list promise)
    (section : obj) (sp ip : list promise) :
  get props "type" = VStr "external" ->
  propsResolve reconcile CSelectMenu props ->
  reconcile (sectionOf props) = Ok (Some section, sp) ->
  reconcile (get props "initialOption") = Ok (None, ip) ->
  exists instance promises',
    SelectMenu_toSlackElement props reconcile promises
    = Ok (instance, promises')
    /\ get instance "min_query_length" = get props "minQueryLength"
    /\ keys instance
       = ["type"; "action_id"; "onSearchOptions"; "min_query_length";
          "confirm"; "placeholder"].
Proof.
  intros Htype Hprops Hsec Hio.
  resolve_prop Hprops CSelectMenu "confirm" confirm cp Hconfirm.
  resolve_prop Hprops CSelectMenu "placeholder" ph pp Hph.
  unfold SelectMenu_toSlackElement. cbv zeta.
  rewrite Hconfirm, Hph, Hsec, Hio. cbn [bind fieldsOf fst snd].
  rewrite Htype. cbn [strictEq String.eqb Ascii.eqb Bool.eqb bind].
  rewrite coerceIfPresent_set. cbn [bind].
  eexists. eexists. split; [reflexivity|]. split; [|reflexivity].
  rewrite !get_set_other by discriminate. apply get_set_same.
Qed.

(** The theorem at an external menu that has a selected option among its
    children but no [initialOption]. *)
Lemma external_menu_without_initial_option_witness :
  exists instance promises',
    SelectMenu_toSlackElement exExternalNoInitialProps (reconcile 4) []
    = Ok (instance, promises')
    /\ get instance "min_query_length" = VNum 2
    /\ keys instance
       = ["type"; "action_id"; "onSearchOptions"; "min_query_length";
          "confirm"; "placeholder"].
Proof.
  assert (Hprops : propsResolve (reconcile 4) CSelectMenu
                     exExternalNoInitialProps) by (repeat constructor).
  exact (external_menu_without_initial_option (reconcile 4)
           exExternalNoInitialProps []
           (sectionWith [VObj (resolvedOption "a" true)]) [] []
           eq_refl Hprops eq_refl eq_refl).
Defined.

(** A guarded block of a menu leaves the field [k] of the element as it
    was: name that fact and drop the block. *)
Ltac block_keeps H k :=
  lazymatch type of H with
  | (if ?b then _ else Ok ?base) = Ok ?x =>
      let E := fresh "E" in
      assert (E : get x k = get base k)
        by (destruct b; [|inversion H; reflexivity];
            first
              [ rewrite (get_copyFilter_other _ k _ _ H) by discriminate;
                rewrite get_set_other by discriminate; reflexivity
              | repeat match type of H with
                       | match ?v with VArr _ => _ | _ => _ end = Ok _ =>
                           destruct v
                       | match ?l with [] => _ | _ :: _ => _ end = Ok _ =>
                           destruct l
                       | bind _ _ = Ok _ => inv_bind H
                       end;
                inversion H; rewrite ?get_set_other by discriminate;
                reflexivity ]);
      clear H
  end.

Lemma menu_type_of_props
    (c : component) (reconcile : resolver) (props : obj)
    (promises promises' : list promise) (instance : obj) :
  c = CSelectMenu \/ c = CMultiSelectMenu ->
  toSlackElement c props reconcile promises = Ok (instance, promises') ->
  get instance "type"
  = VStr (menuPrefix c ++ shown (get props "type") ++ "_select").
Proof.
  intros Hc Hrun.
  destruct Hc as [-> | ->]; simpl in Hrun;
    unfold SelectMenu_toSlackElement, MultiSelectMenu_toSlackElement
      in Hrun; cbv zeta in Hrun;
    repeat inv_bind Hrun; apply spelled_Ok in Hrun;
    inversion Hrun; clear Hrun; subst;
    repeat match goal with
      | H : (if _ then _ else Ok _) = Ok _ |- _ => block_keeps H "type"
      end;
    repeat (untouched;
            match goal with
            | E : get ?x "type" = _ |- context [get ?x "type"] =>
                rewrite E; clear E
            end);
    untouched.
Qed.

(** ** Options *)

(** X13. An Option answers [isSelected()] with its [selected] prop, so it
    counts as selected exactly when that prop is truthy; its description,
    when it has one, is plain text; and its copy as an initial selection
    keeps its value, its description and its answer, and has no [url]. *)
Theorem Option_as_initial_selection
    (reconcile : resolver) (props : obj) (promises : list promise)
    (description : option obj) (dp : list promise) :
  reconcile (get props "description") = Ok (description, dp) ->
  exists instance,
    Option_toSlackElement props reconcile promises
    = Ok (instance, promises ++ dp)
    /\ isSelected (VObj instance) = Ok (truthy (get props "selected"))
    /\ get instance "description"
       = ofResolved
           (option_map (set "type" (VStr "plain_text")) description)
    /\ exists copy,
         withoutUrl (VObj instance) = VObj copy
         /\ get copy "url" = VUndef
         /\ get copy "value" = get props "value"
         /\ get copy "description" = get instance "description"
         /\ isSelected (VObj copy) = Ok (truthy (get props "selected")).
Proof.
  intros Hd. unfold Option_toSlackElement. rewrite Hd. cbn [bind].
  rewrite coerceIfPresent_set. cbn [bind].
  eexists. split; [reflexivity|].
  split; [reflexivity|]. split; [reflexivity|].
  eexists. split; [reflexivity|]. repeat split.
Qed.

(** The theorem at a selected option described in mrkdwn. *)
Lemma Option_as_initial_selection_witness :
  exists instance,
    Option_toSlackElement exDescribedOptionProps (reconcile 3) []
    = Ok (instance, [])
    /\ isSelected (VObj instance) = Ok true
    /\ get instance "description"
       = VObj [("type", VStr "plain_text"); ("text", VStr "*Hi*");
               ("verbatim", VUndef)].
Proof.
  destruct (Option_as_initial_selection (reconcile 3) exDescribedOptionProps
              [] (Some resolvedMrkdwn) [] eq_refl)
    as (instance & Hrun & Hsel & Hdesc & _).
  exact (ex_intro _ instance (conj Hrun (conj Hsel Hdesc))).
Defined.

(** ** Nested elements *)

(** X14. A rule stores a nested Confirm, and Section its accessory, as
    [reconcile] returned it: nothing of it is overwritten. *)
Theorem nested_elements_are_passed_on
    (c : component) (k : string) (reconcile : resolver) (props : obj)
    (promises promises' : list promise) (instance : obj)
    (r : option obj) (ps : list promise) :
  In k (passedOn c) ->
  reconcile (get props k) = Ok (r, ps) ->
  toSlackElement c props reconcile promises = Ok (instance, promises') ->
  get instance k = ofResolved r.
Proof.
  intros Hin Hk Hrun.
  destruct c; simpl in Hin; try contradiction;
    destruct Hin as [<-|[]]; simpl in Hrun; unfold_rules_in Hrun;
    cbv zeta in Hrun.
  all: repeat inv_bind Hrun.
  all: try apply spelled_Ok in Hrun.
  all: inversion Hrun; clear Hrun; subst.
  all: repeat match goal with
       | H : ?f ?e = Ok (?a, _) |- _ =>
           tryif constr_eq H Hk then fail
           else (rewrite Hk in H; inversion H; clear H; subst)
       end.
  all: repeat match goal with
       | H : match ?o with Some _ => _ | None => _ end = Ok _ |- _ =>
           destruct o
       | H : (if ?b then _ else _) = Ok _ |- _ => destruct b
       | H : Ok _ = Ok _ |- _ => inversion H; clear H; subst
       end.
  all: untouched.
  all: try (rewrite get_set_same; reflexivity).
Qed.

(** The theorem at a Button that asks for confirmation: the Confirm keeps
    its marker and its captions. *)
Lemma nested_elements_are_passed_on_witness :
  exists instance,
    toSlackElement CButton exConfirmingButtonProps (reconcile 3) []
    = Ok (instance, [])
    /\ get instance "confirm"
       = VObj (exConfirmInstance
               ++ [("text", VObj [("type", VStr "plain_text");
                                  ("text", VStr "Really?")])]).
Proof.
  eexists.
  assert (H : toSlackElement CButton exConfirmingButtonProps (reconcile 3) []
              = Ok (_, [])) by reflexivity.
  assert (Hin : In "confirm" (passedOn CButton)) by (simpl; auto).
  exact (conj H (nested_elements_are_passed_on CButton "confirm"
                   (reconcile 3) exConfirmingButtonProps [] [] _
                   (Some (exConfirmInstance
                          ++ [("text", VObj [("type", VStr "plain_text");
                                             ("text", VStr "Really?")])]))
                   [] Hin eq_refl H)).
Defined.

(** X15. No rule looks at the handlers [onClick] and [onSelect], and only the
    rules that collect options look at [children]: whatever these props
    hold, the conversion comes out the same. *)
Theorem handlers_and_children_are_not_read
    (c : component) (k : string) (v : value) (reconcile : resolver)
    (props : obj) (promises : list promise) :
  In k (unreadProps c) ->
  toSlackElement c (set k v props) reconcile promises
  = toSlackElement c props reconcile promises.
Proof.
  intros Hin.
  destruct c; simpl in Hin;
    repeat (destruct Hin as [<-|Hin]; [|try contradiction]);
    simpl toSlackElement; unfold_rules;
    unfold Text_toSlackElement, Image_toSlackElement,
      ImageBlock_toSlackElement, Message_toSlackElement, sectionOf,
      copyFilter;
    rewrite ?get_set_other by discriminate; reflexivity.
Qed.

(** The theorem at a Button given a click handler. *)
Lemma handlers_and_children_are_not_read_witness :
  toSlackElement CButton
    (set "onClick" (VFun VUndef) exConfirmingButtonProps) (reconcile 3) []
  = toSlackElement CButton exConfirmingButtonProps (reconcile 3) [].
Proof.
  assert (Hin : In "onClick" (unreadProps CButton)) by (simpl; auto).
  exact (handlers_and_children_are_not_read CButton "onClick" (VFun VUndef)
           (reconcile 3) exConfirmingButtonProps [] Hin).
Defined.

(** ** Conversions that succeed *)

Lemma findM_answered (options : list value) :
  answering options ->
  exists r, findM isSelected (map withoutUrl options) = Ok r.
Proof.
  induction 1 as [|v options Hv _ IH]; simpl; [eauto|].
  apply isOk_true in Hv. destruct Hv as [b Hb].
  rewrite (isSelected_withoutUrl _ _ Hb). cbn [bind].
  destruct b; eauto.
Qed.

Lemma copyFilter_succeeds (props i : obj) :
  exists i', copyFilter props i = Ok i'.
Proof.
  unfold copyFilter. destruct (truthy (get props "filter")) eqn:T; [|eauto].
  destruct (get props "filter"); try discriminate T; cbn; eauto.
Qed.

(** Name what each nested prop resolves to. *)
Ltac resolve_nested H :=
  unfold propsResolve in H; simpl in H;
  repeat match goal with
    | F : Forall _ (_ :: _) |- _ => inversion F; clear F; subst
    | F : Forall _ [] |- _ => clear F
    | E : isOk _ = true |- _ => apply isOk_true in E; destruct E as [[? ?] E]
    | E : exists _, _ |- _ => destruct E as [? E]
    end.

Ltac run_resolved :=
  repeat match goal with
    | E : ?f ?e = Ok _ |- context [?f ?e] => rewrite E
    end;
  cbn [bind fieldsOf fst snd].

Lemma static_options
    (section : obj) (tag : string) (child : value) (children : list value) :
  (tag = "static" -> resolvedChildren section <> [] ->
   exists options,
     flattenGroups (resolvedChildren section) = Ok options
     /\ answering options) ->
  strictEq (VStr tag) "static" = true ->
  get section "fields" = VArr (child :: children) ->
  exists options,
    flattenGroups (child :: children) = Ok options /\ answering options.
Proof.
  intros Hready Htag Hfields. apply String.eqb_eq in Htag.
  unfold resolvedChildren in Hready. rewrite Hfields in Hready.
  apply Hready; [exact Htag | discriminate].
Qed.

(** Run the block of a menu that looks for the selected options. *)
Ltac static_block Hstatic :=
  match goal with
  | |- context [if strictEq (VStr ?tag) "static" then _ else _] =>
      let Es := fresh "Es" in
      let Ef := fresh "Ef" in
      destruct (strictEq (VStr tag) "static") eqn:Es;
      [ match goal with
        | |- context [match get ?section "fields" with _ => _ end] =>
            destruct (get section "fields")
              as [| | | | |[|? ?]| | |] eqn:Ef;
            try (let options := fresh "options" in
                 let Hflat := fresh "Hflat" in
                 let Hans := fresh "Hans" in
                 destruct (static_options _ _ _ _ Hstatic Es Ef)
                   as (options & Hflat & Hans);
                 rewrite Hflat; cbn [bind];
                 first
                   [ rewrite (filterM_selected _ Hans)
                   | let r := fresh "r" in
                     let Hr := fresh "Hr" in
                     destruct (findM_answered _ Hans) as [r Hr];
                     rewrite Hr ])
        end
      | ];
      cbn [bind]
  end.

(** A rule whose nested props resolve returns an element as soon as it is
    [ready]: nothing else in the props can make it fail. *)
Lemma rule_succeeds
    (c : component) (reconcile : resolver) (props : obj)
    (promises : list promise) :
  propsResolve reconcile c props ->
  ready reconcile c props ->
  exists instance promises',
    toSlackElement c props reconcile promises = Ok (instance, promises').
Proof.
  intros Hprops Hready.
  destruct c; simpl toSlackElement; unfold_rules; cbv zeta;
    try (eexists; eexists; reflexivity).
  - (* Button *)
    resolve_nested Hprops. run_resolved. eauto.
  - (* Section *)
    resolve_nested Hprops. run_resolved.
    match goal with
    | |- context [match ?x with Some _ => _ | None => _ end] =>
        destruct x as [text|]
    end; cbn [bind]; [|eauto].
    destruct (strictEq (get text "type") "text"); cbn; eauto.
  - (* Confirm *)
    clear Hprops. simpl in Hready. resolve_nested Hready.
    run_resolved. cbn. eauto.
  - (* Option *)
    resolve_nested Hprops. run_resolved.
    rewrite coerceIfPresent_set. cbn [bind]. eauto.
  - (* DatePicker *)
    resolve_nested Hprops. run_resolved.
    repeat match goal with o : option obj |- _ => destruct o end;
      cbn; eauto.
  - (* Modal *)
    resolve_nested Hprops. run_resolved.
    repeat match goal with o : option obj |- _ => destruct o end;
      cbn; eauto.
  - (* Input *)
    resolve_nested Hprops. run_resolved.
    repeat match goal with o : option obj |- _ => destruct o end;
      cbn; eauto.
  - (* TextField *)
    resolve_nested Hprops. run_resolved.
    rewrite coerceIfPresent_set. cbn [bind]. eauto.
  - (* Checkboxes *)
    destruct Hready as (section & sp & Hsec & Hans).
    resolve_nested Hprops. run_resolved.
    unfold resolvedChildren in Hans.
    destruct (get section "fields"); cbn [bind]; eauto.
    rewrite (filterM_answered _ Hans). cbn [bind]. eauto.
  - (* OverflowMenu *)
    resolve_nested Hprops. run_resolved. eauto.
  - (* RadioButtons *)
    destruct Hready as (section & sp & Hsec & Hans).
    resolve_nested Hprops. run_resolved.
    unfold resolvedChildren in Hans.
    destruct (get section "fields"); cbn [bind]; eauto.
    destruct (findM_answered _ Hans) as [r ->]. cbn [bind]. eauto.
  - (* OptionGroup *)
    resolve_nested Hprops. run_resolved.
    rewrite coerceIfPresent_set. cbn [bind]. eauto.
  - (* SelectMenu *)
    destruct Hready as (tag & section & sp & Htype & Hsec & Hstatic).
    resolve_nested Hprops. run_resolved. rewrite Htype.
    static_block Hstatic.
    all: match goal with
         | |- context [bind (if ?b then copyFilter ?p ?i else _)] =>
             destruct b;
               [destruct (copyFilter_succeeds p i) as [i'' ->]|]
         end; cbn [bind]; rewrite coerceIfPresent_set; cbn [bind];
           rewrite spelled_string; eauto.
  - (* MultiSelectMenu *)
    destruct Hready as (tag & section & sp & Htype & Hsec & Hstatic).
    resolve_nested Hprops. run_resolved. rewrite Htype.
    static_block Hstatic.
    all: match goal with
         | |- context [bind (if ?b then copyFilter ?p ?i else _)] =>
             destruct b;
               [destruct (copyFilter_succeeds p i) as [i'' ->]|]
         end; cbn [bind]; rewrite coerceIfPresent_set; cbn [bind];
           rewrite spelled_string; eauto.
  - (* Home *)
    resolve_nested Hprops. run_resolved.
    rewrite coerceIfPresent_set. cbn [bind]. eauto.
Qed.

(** ** Captions, as returned *)

(** C1. For each of Modal, Home, Input, TextField, DatePicker, SelectMenu,
    MultiSelectMenu, OptionGroup and Confirm, and each of its caption props
    listed in [textProps]: when the prop resolves to an element, the nested
    props resolve and the rule is [ready], the rule returns an element, and
    that element holds the resolved caption under the same name with its
    kind overwritten by plain_text, whatever kind it had. *)
Theorem caption_kind_is_plain_text
    (c : component) (k : string) (reconcile : resolver) (props : obj)
    (promises : list promise) (o : obj) (ps : list promise) :
  In k (textProps c) ->
  reconcile (get props k) = Ok (Some o, ps) ->
  propsResolve reconcile c props ->
  ready reconcile c props ->
  exists instance promises',
    toSlackElement c props reconcile promises = Ok (instance, promises')
    /\ get instance k = VObj (set "type" (VStr "plain_text") o)
    /\ get (set "type" (VStr "plain_text") o) "type" = VStr "plain_text".
Proof.
  intros Hin Hk Hprops Hready.
  destruct (rule_succeeds c reconcile props promises Hprops Hready)
    as (instance & promises' & Hrun).
  exists instance, promises'. split; [exact Hrun|].
  split; [|apply get_set_same].
  exact (caption_kind_if_converted _ _ _ _ _ _ _ _ _ Hin Hk Hrun).
Qed.

(** The theorem at [<Modal title={<Text type="mrkdwn">*Hi*</Text>} />],
    whose title was declared mrkdwn, and at the placeholder of a static
    menu with two groups of options. *)
Lemma caption_kind_is_plain_text_witness :
  (exists instance promises',
     toSlackElement CModal exModalProps (reconcile 3) []
     = Ok (instance, promises')
     /\ get resolvedMrkdwn "type" = VStr "mrkdwn"
     /\ get instance "title"
        = VObj [("type", VStr "plain_text"); ("text", VStr "*Hi*");
                ("verbatim", VUndef)])
  /\ (exists instance promises',
        toSlackElement CSelectMenu exMenuProps (reconcile 4) []
        = Ok (instance, promises')
        /\ get instance "placeholder"
           = VObj [("type", VStr "plain_text"); ("text", VStr "Pick")]).
Proof.
  assert (Hmodal : propsResolve (reconcile 3) CModal exModalProps)
    by (repeat constructor).
  assert (Hmenu : propsResolve (reconcile 4) CSelectMenu exMenuProps)
    by (repeat constructor).
  assert (Hready : ready (reconcile 4) CSelectMenu exMenuProps).
  { exists "static", (sectionWith exGroups), [].
    split; [reflexivity|]. split; [reflexivity|].
    intros _ _. exists exOptions. split; [reflexivity|].
    repeat constructor. }
  split.
  - destruct (caption_kind_is_plain_text CModal "title" (reconcile 3)
                exModalProps [] resolvedMrkdwn []
                (or_introl eq_refl) eq_refl Hmodal I)
      as (instance & promises' & Hrun & Hget & _).
    exact (ex_intro _ instance
             (ex_intro _ promises' (conj Hrun (conj eq_refl Hget)))).
  - destruct (caption_kind_is_plain_text CSelectMenu "placeholder"
                (reconcile 4) exMenuProps [] (textLeaf "Pick") []
                (or_introl eq_refl) eq_refl Hmenu Hready)
      as (instance & promises' & Hrun & Hget & _).
    exact (ex_intro _ instance (ex_intro _ promises' (conj Hrun Hget))).
Defined.

(** ** The selection of a static multi-select menu *)

(** C4, as the code has it. A static MultiSelectMenu whose children resolved
    to a non-empty list, of options or of groups, has as [initial_options]
    the flattened options that are marked selected, in their order, each
    as a copy whose [url] is [undefined]: the empty list when none is
    marked.  One whose children resolved to nothing skips the block and has
    no field [initial_options] at all. *)
Theorem MultiSelectMenu_static_initial_options
    (reconcile : resolver) (props : obj) (promises : list promise)
    (section : obj) (sp : list promise) (options : list value) :
  get props "type" = VStr "static" ->
  propsResolve reconcile CMultiSelectMenu props ->
  reconcile (sectionOf props) = Ok (Some section, sp) ->
  (resolvedChildren section <> [] ->
   flattenGroups (resolvedChildren section) = Ok options
   /\ answering options) ->
  exists instance promises',
    MultiSelectMenu_toSlackElement props reconcile promises
    = Ok (instance, promises')
    /\ match resolvedChildren section with
       | [] => has instance "initial_options" = false
       | _ :: _ =>
           get instance "initial_options"
           = VArr (map withoutUrl (filter selected options))
       end.
Proof.
  intros Htype Hprops Hsec Hoptions.
  resolve_prop Hprops CMultiSelectMenu "confirm" confirm cp Hconfirm.
  resolve_prop Hprops CMultiSelectMenu "placeholder" ph pp Hph.
  unfold MultiSelectMenu_toSlackElement. cbv zeta.
  rewrite Hconfirm, Hph, Hsec. cbn [bind fieldsOf fst snd].
  rewrite Htype.
  change (strictEq (VStr "static") "static") with true.
  change (strictEq (VStr "static") "external") with false.
  change (strictEq (VStr "static") "users") with false.
  change (strictEq (VStr "static") "channels") with false.
  change (strictEq (VStr "static") "conversations") with false.
  cbv iota. unfold resolvedChildren in *.
  destruct (get section "fields") as [| | | | |[|child children]| | |].
  7: { cbv iota in Hoptions |- *.
       assert (Hne : child :: children <> []) by discriminate.
       destruct (Hoptions Hne) as [Hflat Hans].
       rewrite Hflat. cbn [bind].
       rewrite (filterM_selected _ Hans). cbn [bind].
       rewrite coerceIfPresent_set. cbn [bind].
       eexists. eexists. split; [reflexivity|].
       rewrite !get_set_other by discriminate. apply get_set_same. }
  all: cbv iota; cbn [bind]; rewrite coerceIfPresent_set; cbn [bind];
    eexists; eexists; (split; [reflexivity|]);
    rewrite !has_set_other by discriminate; reflexivity.
Qed.

(** The theorem at a static menu with two groups, whose selected options
    are [b] and [c], and at one with an empty list of children. *)
Lemma MultiSelectMenu_static_initial_options_witness :
  (exists instance promises',
     MultiSelectMenu_toSlackElement exMenuProps (reconcile 4) []
     = Ok (instance, promises')
     /\ get instance "initial_options"
        = VArr [initialOption "b" true; initialOption "c" true])
  /\ (exists instance promises',
        MultiSelectMenu_toSlackElement exEmptyMenuProps (reconcile 4) []
        = Ok (instance, promises')
        /\ has instance "initial_options" = false).
Proof.
  assert (Hfull : propsResolve (reconcile 4) CMultiSelectMenu exMenuProps)
    by (repeat constructor).
  assert (Hempty : propsResolve (reconcile 4) CMultiSelectMenu
                     exEmptyMenuProps) by (repeat constructor).
  assert (Hoptions : resolvedChildren (sectionWith exGroups) <> [] ->
                     flattenGroups (resolvedChildren (sectionWith exGroups))
                     = Ok exOptions
                     /\ answering exOptions).
  { intros _. split; [reflexivity | repeat constructor]. }
  assert (Hnone : resolvedChildren
                    [("type", VStr "section"); ("text", VUndef);
                     ("accessory", VUndef)] <> [] ->
                  flattenGroups
                    (resolvedChildren
                       [("type", VStr "section"); ("text", VUndef);
                        ("accessory", VUndef)]) = Ok []
                  /\ answering []).
  { intros H. exfalso. apply H. reflexivity. }
  split.
  - exact (MultiSelectMenu_static_initial_options (reconcile 4) exMenuProps
             [] (sectionWith exGroups) [] exOptions
             eq_refl Hfull eq_refl Hoptions).
  - exact (MultiSelectMenu_static_initial_options (reconcile 4)
             exEmptyMenuProps []
             [("type", VStr "section"); ("text", VUndef);
              ("accessory", VUndef)] [] []
             eq_refl Hempty eq_refl Hnone).
Defined.

(** C4, as stated, fails: with an empty list of children the element has
    no [initial_options], where the selected options of no options would be
    the empty list; one option that is not selected does give the empty
    list. *)
Lemma static_menu_without_children_has_no_initial_options :
  exists empty lone,
    get exEmptyMenuProps "type" = VStr "static"
    /\ MultiSelectMenu_toSlackElement exEmptyMenuProps (reconcile 4) []
       = Ok (empty, [])
    /\ has empty "initial_options" = false
    /\ get empty "initial_options" <> VArr []
    /\ MultiSelectMenu_toSlackElement exLoneMenuProps (reconcile 4) []
       = Ok (lone, [])
    /\ get lone "initial_options" = VArr [].
Proof.
  do 2 eexists. split; [reflexivity|]. split; [reflexivity|].
  split; [reflexivity|]. split; [discriminate|].
  split; reflexivity.
Qed.

(** ** Props that are not checked *)

(** C8, as the code has it. Provided the nested props resolve, a Button
    without [action] converts to a button whose [action_id] is undefined, an
    Option without [value] to an option whose [value] is undefined, and a
    menu whose [type] is a string that is no declared variant to an element
    whose type is built from that string all the same, with the fields
    common to all variants and no other.  More generally the rule of any
    component other than Confirm and the four that collect options returns
    an element for any props whose nested props resolve. *)
Theorem rules_do_not_check_props
    (reconcile : resolver) (button option menu : obj)
    (promises : list promise) (tag : string) (section : obj)
    (sp : list promise) :
  propsResolve reconcile CButton button ->
  propsResolve reconcile COption option ->
  propsResolve reconcile CSelectMenu menu ->
  reconcile (sectionOf menu) = Ok (Some section, sp) ->
  has button "action" = false ->
  has option "value" = false ->
  get menu "type" = VStr tag ->
  ~ In tag declaredVariants ->
  (exists instance promises',
     Button_toSlackElement button reconcile promises
     = Ok (instance, promises')
     /\ get instance "action_id" = VUndef)
  /\ (exists instance promises',
        Option_toSlackElement option reconcile promises
        = Ok (instance, promises')
        /\ get instance "value" = VUndef)
  /\ (exists instance promises',
        SelectMenu_toSlackElement menu reconcile promises
        = Ok (instance, promises')
        /\ get instance "type" = VStr (tag ++ "_select")
        /\ keys instance
           = ["type"; "action_id"; "onSearchOptions"; "confirm";
              "placeholder"])
  /\ (exists instance promises',
        MultiSelectMenu_toSlackElement menu reconcile promises
        = Ok (instance, promises')
        /\ get instance "type" = VStr (("multi_" ++ tag) ++ "_select")
        /\ keys instance
           = ["type"; "action_id"; "max_selected_items"; "onSearchOptions";
              "confirm"; "placeholder"])
  /\ (forall c props,
        c <> CConfirm -> collectsOptions c = false ->
        propsResolve reconcile c props ->
        exists instance promises',
          toSlackElement c props reconcile promises
          = Ok (instance, promises')).
Proof.
  intros Hbutton Hoption Hmenu Hsec Haction Hvalue Htype Hout.
  resolve_prop Hbutton CButton "confirm" bc bcp Hbc.
  resolve_prop Hoption COption "description" description dp Hdescription.
  resolve_prop Hmenu CSelectMenu "confirm" confirm cp Hconfirm.
  resolve_prop Hmenu CSelectMenu "placeholder" ph pp Hph.
  resolve_prop Hmenu CSelectMenu "initialOption" io ip Hio.
  apply get_absent in Haction. apply get_absent in Hvalue.
  assert (Hv : forall s, In s declaredVariants ->
                 strictEq (VStr tag) s = false)
    by (intros s; apply strictEq_undeclared; assumption).
  pose proof (Hv "static" ltac:(simpl; tauto)) as H1.
  pose proof (Hv "external" ltac:(simpl; tauto)) as H2.
  pose proof (Hv "users" ltac:(simpl; tauto)) as H3.
  pose proof (Hv "channels" ltac:(simpl; tauto)) as H4.
  pose proof (Hv "conversations" ltac:(simpl; tauto)) as H5.
  split; [|split; [|split; [|split]]].
  - unfold Button_toSlackElement. rewrite Hbc. cbn [bind].
    eexists. eexists. split; [reflexivity|].
    rewrite get_set_other by discriminate. simpl. exact Haction.
  - unfold Option_toSlackElement. rewrite Hdescription. cbn [bind].
    rewrite coerceIfPresent_set. cbn [bind].
    eexists. eexists. split; [reflexivity|].
    rewrite get_set_other by discriminate. simpl. exact Hvalue.
  - unfold SelectMenu_toSlackElement. cbv zeta.
    rewrite Hconfirm, Hph, Hsec, Hio. cbn [bind fieldsOf fst snd].
    rewrite Htype, H1, H2, H3, H4, H5. cbn [bind].
    rewrite coerceIfPresent_set. cbn [bind].
    eexists. eexists. split; [reflexivity|]. split; [|reflexivity].
    rewrite !get_set_other by discriminate. reflexivity.
  - unfold MultiSelectMenu_toSlackElement. cbv zeta.
    rewrite Hconfirm, Hph, Hsec. cbn [bind fieldsOf fst snd].
    rewrite Htype, H1, H2, H3, H4, H5. cbn [bind].
    rewrite coerceIfPresent_set. cbn [bind].
    eexists. eexists. split; [reflexivity|]. split; [|reflexivity].
    rewrite !get_set_other by discriminate. reflexivity.
  - intros c props Hc Hcollects Hprops.
    apply rule_succeeds; [exact Hprops|].
    destruct c; try exact I; try discriminate Hcollects.
    now contradiction Hc.
Qed.

(** The theorem at [<Button>Go</Button>], [<Option>a</Option>] and a menu
    of type ["bogus"]; and its last part at a Modal without any prop. *)
Lemma rules_do_not_check_props_witness :
  (exists instance promises',
     Button_toSlackElement exButtonProps (reconcile 3) []
     = Ok (instance, promises')
     /\ get instance "action_id" = VUndef)
  /\ (exists instance promises',
        Option_toSlackElement exOptionProps (reconcile 3) []
        = Ok (instance, promises')
        /\ get instance "value" = VUndef)
  /\ (exists instance promises',
        SelectMenu_toSlackElement exUnknownMenuProps (reconcile 3) []
        = Ok (instance, promises')
        /\ get instance "type" = VStr "bogus_select"
        /\ keys instance
           = ["type"; "action_id"; "onSearchOptions"; "confirm";
              "placeholder"])
  /\ (exists instance promises',
        MultiSelectMenu_toSlackElement exUnknownMenuProps (reconcile 3) []
        = Ok (instance, promises')
        /\ get instance "type" = VStr "multi_bogus_select"
        /\ keys instance
           = ["type"; "action_id"; "max_selected_items"; "onSearchOptions";
              "confirm"; "placeholder"])
  /\ (exists instance promises',
        toSlackElement CModal [] (reconcile 3) []
        = Ok (instance, promises')).
Proof.
  assert (H1 : propsResolve (reconcile 3) CButton exButtonProps)
    by (repeat constructor).
  assert (H2 : propsResolve (reconcile 3) COption exOptionProps)
    by (repeat constructor).
  assert (H3 : propsResolve (reconcile 3) CSelectMenu exUnknownMenuProps)
    by (repeat constructor).
  assert (H4 : ~ In "bogus" declaredVariants)
    by (simpl; intros [H|[H|[H|[H|[H|[]]]]]]; discriminate H).
  assert (H5 : propsResolve (reconcile 3) CModal [])
    by (repeat constructor).
  assert (H6 : CModal <> CConfirm) by discriminate.
  destruct (rules_do_not_check_props (reconcile 3) exButtonProps
              exOptionProps exUnknownMenuProps [] "bogus"
              [("type", VStr "section"); ("text", VUndef);
               ("accessory", VUndef)] []
              H1 H2 H3 eq_refl eq_refl eq_refl eq_refl H4)
    as (Hb & Ho & Hs & Hm & Hall).
  exact (conj Hb (conj Ho (conj Hs (conj Hm
           (Hall CModal [] H6 eq_refl H5))))).
Defined.

(** ** Fields of the emitted elements, as returned *)






(** ** The wire type of a menu *)

(** X12. A menu created with its default props whose [type] prop is a
    string, or absent, returns an element as soon as its nested props
    resolve and it is [ready]; the wire type of that element is the string
    followed by ["_select"], after ["multi_"] for a multi-select menu, and a
    menu created without a [type] is a static one. *)
Theorem menu_wire_type
    (c : component) (reconcile : resolver) (props : obj)
    (promises : list promise) (variant : option string) :
  c = CSelectMenu \/ c = CMultiSelectMenu ->
  get props "type"
  = match variant with
    | Some tag => VStr tag
    | None => VUndef
    end ->
  propsResolve reconcile c (withDefaults (defaultProps c) props) ->
  ready reconcile c (withDefaults (defaultProps c) props) ->
  exists instance promises',
    toSlackElement c (withDefaults (defaultProps c) props) reconcile promises
    = Ok (instance, promises')
    /\ get instance "type"
       = VStr (menuPrefix c
               ++ match variant with
                  | Some tag => tag
                  | None => "static"
                  end
               ++ "_select").
Proof.
  intros Hc Hvariant Hprops Hready.
  destruct (rule_succeeds c reconcile _ promises Hprops Hready)
    as (instance & promises' & Hrun).
  exists instance, promises'. split; [exact Hrun|].
  rewrite (menu_type_of_props _ _ _ _ _ _ Hc Hrun).
  assert (Htype : get (withDefaults [("type", VStr "static")] props) "type"
                  = match variant with
                    | Some tag => VStr tag
                    | None => VStr "static"
                    end).
  { simpl. destruct variant; rewrite Hvariant;
      [exact Hvariant | apply get_set_same]. }
  destruct Hc as [-> | ->]; unfold defaultProps, SelectMenu_defaultProps,
    MultiSelectMenu_defaultProps; rewrite Htype; now destruct variant.
Qed.

(** The theorem at a menu written without [type]. *)
Lemma menu_wire_type_witness :
  exists instance promises',
    get exUntypedMenuProps "type" = VUndef
    /\ toSlackElement CMultiSelectMenu
         (withDefaults (defaultProps CMultiSelectMenu) exUntypedMenuProps)
         (reconcile 3) []
       = Ok (instance, promises')
    /\ get instance "type" = VStr "multi_static_select".
Proof.
  assert (Hprops : propsResolve (reconcile 3) CMultiSelectMenu
                     (withDefaults (defaultProps CMultiSelectMenu)
                        exUntypedMenuProps)) by (repeat constructor).
  assert (Hready : ready (reconcile 3) CMultiSelectMenu
                     (withDefaults (defaultProps CMultiSelectMenu)
                        exUntypedMenuProps)).
  { exists "static",
      [("type", VStr "section"); ("text", VUndef); ("accessory", VUndef)],
      [].
    split; [reflexivity|]. split; [reflexivity|].
    intros _ H. exfalso. apply H. reflexivity. }
  destruct (menu_wire_type CMultiSelectMenu (reconcile 3)
              exUntypedMenuProps [] None (or_intror eq_refl) eq_refl
              Hprops Hready)
    as (instance & promises' & Hrun & Htype).
  exact (ex_intro _ instance
           (ex_intro _ promises' (conj eq_refl (conj Hrun Htype)))).
Defined.
